(** * LocalLLMContentGenerator: the OpenAI-compatible adapter

    A shallow embedding of [packages/core/src/core/localLLMContentGenerator.ts]
    and the properties its specification states about it.

    Conventions of the embedding.
    - A JavaScript string is a [string]; one character stands for one UTF-16
      code unit up to 255, so [length] is the JavaScript [.length] of a
      string of such code units.  A code unit above 255 has no character of
      its own: where [JSON.parse] reads one from an escape, it is carried by
      the bytes of its UTF-8 encoding.
    - A JavaScript number is a [number]: a decimal [m * 10^e], [NaN] or an
      infinity.  The adapter only tests numbers for truthiness, passes them
      on and prints them; binary64 rounding is not modelled.
    - Plain data the adapter treats as opaque (parsed tool-call arguments,
      schemas, object literals it returns) is a [value].
    - A thrown exception is the [Throw] case of [result].
    - Console and file diagnostics ([console.error], [logToFile]) have no
      effect on any returned value and are left out. *)

From Stdlib Require Import String Ascii List ZArith Bool Lia QArith Qround.
From Stdlib Require Import DecimalString.
From Stdlib Require DecimalPos DecimalFacts.
Import ListNotations.

#[local] Set Warnings "-register-all".
#[local] Close Scope Q_scope.
#[local] Open Scope list_scope.
#[local] Open Scope string_scope.

(** ** Numbers *)

Inductive number : Type :=
| Finite (m e : Z)            (* the decimal m * 10^e *)
| NaN
| Infinity (negative : bool).

(** ToBoolean on a number: [0], [-0] and [NaN] are falsy. *)
Definition number_truthy (n : number) : bool :=
  match n with
  | Finite m _ => negb (m =? 0)%Z
  | NaN => false
  | Infinity _ => true
  end.

Definition num (z : Z) : number := Finite z 0.

(** ** Plain data *)

Inductive value : Type :=
| VUndefined
| VNull
| VBool (b : bool)
| VNum (n : number)
| VStr (s : string)
| VArr (items : list value)
| VObj (fields : list (string * value)).   (* own properties, in enumeration order *)

Definition string_truthy (s : string) : bool :=
  match s with "" => false | _ => true end.

(** ToBoolean. *)
Definition truthy (v : value) : bool :=
  match v with
  | VUndefined | VNull => false
  | VBool b => b
  | VNum n => number_truthy n
  | VStr s => string_truthy s
  | VArr _ | VObj _ => true
  end.

Fixpoint assoc (k : string) (fields : list (string * value)) : option value :=
  match fields with
  | [] => None
  | (k', v) :: rest => if String.eqb k k' then Some v else assoc k rest
  end.

(** [o.k] on an object literal; a missing property reads as [undefined]. *)
Definition get (k : string) (o : value) : value :=
  match o with
  | VObj fields => match assoc k fields with Some v => v | None => VUndefined end
  | _ => VUndefined
  end.

(** [k in o]. *)
Definition has (k : string) (o : value) : bool :=
  match o with
  | VObj fields => match assoc k fields with Some _ => true | None => false end
  | _ => false
  end.

(** ** Exceptions *)

Inductive exn : Type :=
| Error (message : string)
| SyntaxError            (* raised by JSON.parse *)
| TypeError              (* a property read on undefined *)
| Rejected (reason : string).  (* a transport failure: fetch or a body reader rejected *)

Inductive result (A : Type) : Type :=
| Ok (a : A)
| Throw (e : exn).
Arguments Ok {A} a.
Arguments Throw {A} e.

Definition bind {A B} (r : result A) (k : A -> result B) : result B :=
  match r with
  | Ok a => k a
  | Throw e => Throw e
  end.

Notation "x <- r ;; k" := (bind r (fun x => k))
  (at level 61, r at next level, right associativity).

(** ** Number::toString *)

Definition zeros (n : nat) : string := string_of_list_ascii (repeat "0"%char n).

Definition digits (p : positive) : string := NilEmpty.string_of_uint (Pos.to_uint p).

Definition decimal_of_Z (z : Z) : string :=
  match z with
  | Z0 => "0"
  | Zpos p => digits p
  | Zneg p => "-" ++ digits p
  end.

(** Trailing zeros of a significand move into the exponent. *)
Fixpoint strip_zeros (rev_digits : list ascii) (e : Z) : list ascii * Z :=
  match rev_digits with
  | "0"%char :: rest => strip_zeros rest (e + 1)%Z
  | _ => (rev_digits, e)
  end.

Definition take (n : nat) (s : string) : string := substring 0 n s.
Definition drop (n : nat) (s : string) : string := substring n (String.length s - n) s.

(** The decimal rendering of [p * 10^e], [p > 0], by the four cases of
    ECMAScript's Number::toString. *)
Definition positive_toString (p : positive) (e : Z) : string :=
  let '(rev_s, e') := strip_zeros (rev (list_ascii_of_string (digits p))) e in
  let s := string_of_list_ascii (rev rev_s) in
  let k := Z.of_nat (String.length s) in
  let n := (k + e')%Z in
  if ((k <=? n) && (n <=? 21))%Z then s ++ zeros (Z.to_nat (n - k))
  else if ((0 <? n) && (n <=? 21))%Z then
    take (Z.to_nat n) s ++ "." ++ drop (Z.to_nat n) s
  else if ((-6 <? n) && (n <=? 0))%Z then "0." ++ zeros (Z.to_nat (- n)) ++ s
  else
    let ex := (n - 1)%Z in
    let sign := if (ex <? 0)%Z then "-" else "+" in
    let mantissa := if (k =? 1)%Z then s else take 1 s ++ "." ++ drop 1 s in
    mantissa ++ "e" ++ sign ++ decimal_of_Z (Z.abs ex).

Definition Number_toString (n : number) : string :=
  match n with
  | Finite Z0 _ => "0"
  | Finite (Zpos p) e => positive_toString p e
  | Finite (Zneg p) e => "-" ++ positive_toString p e
  | NaN => "NaN"
  | Infinity false => "Infinity"
  | Infinity true => "-Infinity"
  end.

(** ** JSON.stringify *)

Definition hex_digit (n : nat) : ascii :=
  nth n (list_ascii_of_string "0123456789abcdef") "0"%char.

Definition dquote : ascii := "034"%char.

(** QuoteJSONString on one code unit. *)
Definition escape (c : ascii) : string :=
  let n := nat_of_ascii c in
  if Nat.eqb n 34 then String "\" (String dquote "")
  else if Nat.eqb n 92 then "\\"
  else if Nat.eqb n 8 then "\b"
  else if Nat.eqb n 12 then "\f"
  else if Nat.eqb n 10 then "\n"
  else if Nat.eqb n 13 then "\r"
  else if Nat.eqb n 9 then "\t"
  else if Nat.ltb n 32 then
    "\u00" ++ String (hex_digit (n / 16)) (String (hex_digit (n mod 16)) "")
  else String c "".

Fixpoint escape_all (s : string) : string :=
  match s with
  | "" => ""
  | String c rest => escape c ++ escape_all rest
  end.

Definition quote (s : string) : string :=
  String dquote (escape_all s ++ String dquote "").

Fixpoint join (sep : string) (l : list string) : string :=
  match l with
  | [] => ""
  | [s] => s
  | s :: rest => s ++ sep ++ join sep rest
  end.

(** SerializeJSONProperty without indentation; [None] is [undefined]. *)
Fixpoint JSON_stringify (v : value) : option string :=
  match v with
  | VUndefined => None
  | VNull => Some "null"
  | VBool true => Some "true"
  | VBool false => Some "false"
  | VNum (Finite m e) => Some (Number_toString (Finite m e))
  | VNum _ => Some "null"
  | VStr s => Some (quote s)
  | VArr items =>
      let element v :=
        match JSON_stringify v with Some t => t | None => "null" end in
      Some ("[" ++ join "," (map element items) ++ "]")
  | VObj fields =>
      let fix members (fs : list (string * value)) : list string :=
        match fs with
        | [] => []
        | (k, v) :: rest =>
            match JSON_stringify v with
            | Some t => (quote k ++ ":" ++ t) :: members rest
            | None => members rest
            end
        end in
      Some ("{" ++ join "," (members fields) ++ "}")
  end.

(** ** JSON.parse

    The runtime's parser, following the ECMA-404 grammar.  Members are kept
    in source order and a repeated key overwrites the earlier member in
    place; the runtime's reordering of integer-like keys is not modelled and
    the sign of [-0] is dropped.  Every escape [\uXXXX] is accepted, lone
    surrogates included, as the runtime accepts it: a code unit up to 255 is
    the character it names, and a larger one, which has no character in the
    string model, is carried by the two or three bytes of its UTF-8
    encoding. *)

Definition is_ws (c : ascii) : bool :=
  let n := nat_of_ascii c in
  Nat.eqb n 32 || Nat.eqb n 9 || Nat.eqb n 10 || Nat.eqb n 13.

Fixpoint skip_ws (s : string) : string :=
  match s with
  | "" => ""
  | String c rest => if is_ws c then skip_ws rest else s
  end.

Definition is_digit (c : ascii) : bool :=
  let n := nat_of_ascii c in Nat.leb 48 n && Nat.leb n 57.

Definition digit_val (c : ascii) : Z := Z.of_nat (nat_of_ascii c - 48).

(** A maximal run of digits appended to [acc]: the number read, how many
    digits it had, and the rest of the input. *)
Fixpoint read_digits (s : string) (acc : Z) (count : nat) : Z * nat * string :=
  match s with
  | "" => (acc, count, s)
  | String c rest =>
      if is_digit c then read_digits rest (10 * acc + digit_val c)%Z (S count)
      else (acc, count, s)
  end.

Definition parse_fraction (ip : Z) (s : string) : option (Z * nat * string) :=
  match s with
  | String "." rest =>
      let '(m, count, rest') := read_digits rest ip 0 in
      match count with O => None | _ => Some (m, count, rest') end
  | _ => Some (ip, O, s)
  end.

Definition parse_exponent (s : string) : option (Z * string) :=
  let unsigned (neg : bool) (r : string) :=
    let '(ex, count, rest) := read_digits r 0%Z 0 in
    match count with
    | O => None
    | _ => Some (if neg then (- ex)%Z else ex, rest)
    end in
  let signed (r : string) :=
    match r with
    | String "-" r' => unsigned true r'
    | String "+" r' => unsigned false r'
    | _ => unsigned false r
    end in
  match s with
  | String "e" r => signed r
  | String "E" r => signed r
  | _ => Some (0%Z, s)
  end.

Definition parse_number (s : string) : option (number * string) :=
  let '(neg, s1) :=
    match s with String "-" r => (true, r) | _ => (false, s) end in
  match s1 with
  | String c r =>
      if is_digit c then
        let '(ip, _, s2) :=
          if Ascii.eqb c "0" then (0%Z, 1, r) else read_digits s1 0%Z 0 in
        match parse_fraction ip s2 with
        | Some (m, fcount, s3) =>
            match parse_exponent s3 with
            | Some (ex, s4) =>
                Some (Finite (if neg then (- m)%Z else m) (ex - Z.of_nat fcount), s4)
            | None => None
            end
        | None => None
        end
      else None
  | "" => None
  end.

Definition hex_val (c : ascii) : option nat :=
  let n := nat_of_ascii c in
  if Nat.leb 48 n && Nat.leb n 57 then Some (n - 48)
  else if Nat.leb 97 n && Nat.leb n 102 then Some (n - 87)
  else if Nat.leb 65 n && Nat.leb n 70 then Some (n - 55)
  else None.

Definition hex4 (a b c d : ascii) : option nat :=
  match hex_val a, hex_val b, hex_val c, hex_val d with
  | Some x, Some y, Some z, Some w => Some (((x * 16 + y) * 16 + z) * 16 + w)
  | _, _, _, _ => None
  end.

Definition simple_escape (c : ascii) : option ascii :=
  let n := nat_of_ascii c in
  if Nat.eqb n 34 then Some c            (* a double quote *)
  else if Nat.eqb n 92 then Some c       (* a backslash *)
  else if Nat.eqb n 47 then Some c       (* a slash *)
  else if Nat.eqb n 98 then Some (ascii_of_nat 8)
  else if Nat.eqb n 102 then Some (ascii_of_nat 12)
  else if Nat.eqb n 110 then Some (ascii_of_nat 10)
  else if Nat.eqb n 114 then Some (ascii_of_nat 13)
  else if Nat.eqb n 116 then Some (ascii_of_nat 9)
  else None.

Definition prepend (c : ascii) (r : option (string * string)) : option (string * string) :=
  match r with
  | Some (str, rest) => Some (String c str, rest)
  | None => None
  end.

(** The bytes [110xxxxx 10xxxxxx] or [1110xxxx 10xxxxxx 10xxxxxx] that
    encode a code unit above 255. *)
Definition utf8 (n : nat) : string :=
  if Nat.ltb n 2048 then
    String (ascii_of_nat (192 + n / 64))
      (String (ascii_of_nat (128 + n mod 64)) "")
  else
    String (ascii_of_nat (224 + n / 4096))
      (String (ascii_of_nat (128 + (n / 64) mod 64))
         (String (ascii_of_nat (128 + n mod 64)) "")).

Definition prepend_all (s : string) (r : option (string * string))
  : option (string * string) :=
  match r with
  | Some (str, rest) => Some (s ++ str, rest)
  | None => None
  end.

(** The characters of a string literal after its opening quote. *)
Fixpoint parse_string (s : string) : option (string * string) :=
  match s with
  | "" => None
  | String c rest =>
      if Nat.eqb (nat_of_ascii c) 34 then Some ("", rest)
      else if Nat.eqb (nat_of_ascii c) 92 then
        match rest with
        | "" => None
        | String e rest' =>
            match simple_escape e with
            | Some ch => prepend ch (parse_string rest')
            | None =>
                match e, rest' with
                | "u"%char, String a (String b (String c' (String d r))) =>
                    match hex4 a b c' d with
                    | Some n =>
                        if Nat.ltb n 256 then prepend (ascii_of_nat n) (parse_string r)
                        else prepend_all (utf8 n) (parse_string r)
                    | None => None
                    end
                | _, _ => None
                end
            end
        end
      else if Nat.ltb (nat_of_ascii c) 32 then None
      else prepend c (parse_string rest)
  end.

Fixpoint obj_set (k : string) (v : value) (fields : list (string * value))
  : list (string * value) :=
  match fields with
  | [] => [(k, v)]
  | (k', v') :: rest =>
      if String.eqb k k' then (k, v) :: rest else (k', v') :: obj_set k v rest
  end.

Definition eat (literal : string) (v : value) (s : string) : option (value * string) :=
  if prefix literal s
  then Some (v, drop (String.length literal) s)
  else None.

Fixpoint parse_value (fuel : nat) (s : string) : option (value * string) :=
  match fuel with
  | O => None
  | S fuel' =>
      match skip_ws s with
      | "" => None
      | String c rest as s' =>
          match c with
          | "034"%char =>
              match parse_string rest with
              | Some (str, r) => Some (VStr str, r)
              | None => None
              end
          | "["%char =>
              match skip_ws rest with
              | String "]" r => Some (VArr [], r)
              | _ =>
                  match parse_elements fuel' rest with
                  | Some (items, r) => Some (VArr items, r)
                  | None => None
                  end
              end
          | "{"%char =>
              match skip_ws rest with
              | String "}" r => Some (VObj [], r)
              | _ =>
                  match parse_members fuel' rest [] with
                  | Some (fields, r) => Some (VObj fields, r)
                  | None => None
                  end
              end
          | "t"%char => eat "true" (VBool true) s'
          | "f"%char => eat "false" (VBool false) s'
          | "n"%char => eat "null" VNull s'
          | _ =>
              match parse_number s' with
              | Some (n, r) => Some (VNum n, r)
              | None => None
              end
          end
      end
  end
with parse_elements (fuel : nat) (s : string) : option (list value * string) :=
  match fuel with
  | O => None
  | S fuel' =>
      match parse_value fuel' s with
      | Some (v, r) =>
          match skip_ws r with
          | String "," r' =>
              match parse_elements fuel' r' with
              | Some (vs, r'') => Some (v :: vs, r'')
              | None => None
              end
          | String "]" r' => Some ([v], r')
          | _ => None
          end
      | None => None
      end
  end
with parse_members (fuel : nat) (s : string) (acc : list (string * value))
  : option (list (string * value) * string) :=
  match fuel with
  | O => None
  | S fuel' =>
      match skip_ws s with
      | String "034" r =>
          match parse_string r with
          | Some (k, r1) =>
              match skip_ws r1 with
              | String ":" r2 =>
                  match parse_value fuel' r2 with
                  | Some (v, r3) =>
                      match skip_ws r3 with
                      | String "," r4 => parse_members fuel' r4 (obj_set k v acc)
                      | String "}" r4 => Some (obj_set k v acc, r4)
                      | _ => None
                      end
                  | None => None
                  end
              | _ => None
              end
          | None => None
          end
      | _ => None
      end
  end.

(** [None] is the SyntaxError the runtime throws.  Every nested call consumes
    a character, so twice the length of the text is ample fuel. *)
Definition JSON_parse (text : string) : option value :=
  match parse_value (S (2 * String.length text)) text with
  | Some (v, rest) => match skip_ws rest with "" => Some v | _ => None end
  | None => None
  end.

(** JSON texts are written with ['] for the double quote. *)
Definition json_text (s : string) : string :=
  string_of_list_ascii
    (map (fun c => if Ascii.eqb c "'" then dquote else c) (list_ascii_of_string s)).

(** ** String.prototype.toUpperCase, on the ASCII letters.  The runtime's
    mapping of other characters is not modelled; the finish reasons of the
    wire protocol are ASCII words. *)

Definition upper (c : ascii) : ascii :=
  let n := nat_of_ascii c in
  if Nat.leb 97 n && Nat.leb n 122 then ascii_of_nat (n - 32) else c.

Fixpoint toUpperCase (s : string) : string :=
  match s with
  | "" => ""
  | String c rest => String (upper c) (toUpperCase rest)
  end.

(** ** The neutral request (the types of @google/genai the adapter reads) *)

(** [ContentListUnion], [ContentUnion], [PartUnion] and [Part[]], as the
    adapter's dynamic tests tell their cases apart.  An object carries the
    three properties the adapter reads ([role?: string], [text?: string],
    [parts?]); function calls, inline data and the like are never read.
    [text] and [parts] are only tested for truthiness, so [None] stands for
    a missing property as well as for one that holds [undefined].  [role] is
    tested with ['role' in content], which a property holding [undefined]
    passes: in [Obj] a role of [None] is a missing property, and
    [ObjUndefinedRole] is the object [{role: undefined, text, parts}]. *)
Inductive ContentUnion : Type :=
| Absent                                   (* undefined or null *)
| Str (s : string)                         (* typeof input === 'string' *)
| Arr (items : list ContentUnion)          (* Array.isArray(input) *)
| Obj (role text : option string) (parts : option ContentUnion)
| ObjUndefinedRole (text : option string) (parts : option ContentUnion).

Definition content_truthy (c : ContentUnion) : bool :=
  match c with
  | Absent => false
  | Str s => string_truthy s
  | Arr _ | Obj _ _ _ | ObjUndefinedRole _ _ => true
  end.

Module Genai.

Record Schema := {
  properties : option value;
  required : option value }.

Record FunctionDeclaration := {
  name : option string;
  description : option string;
  parameters : option Schema }.

Record Tool := {
  functionDeclarations : option (list FunctionDeclaration) }.

Record GenerateContentConfig := {
  systemInstruction : ContentUnion;
  maxOutputTokens : option number;
  temperature : option number;
  topP : option number;
  tools : option (list Tool) }.

Record GenerateContentParameters := {
  contents : ContentUnion;
  config : option GenerateContentConfig }.

End Genai.

(** [CountTokensParameters]: [contents] is only handed to [JSON.stringify],
    which walks it as plain data. *)
Module CountTokensParameters.

Record t := {
  contents : value }.

End CountTokensParameters.

(** ** The wire response (OpenAI chat completion); [None] is an absent or
    null property. *)

Module OpenAI.

Record FunctionCall := {
  name : option string;
  arguments : option string }.

Record ToolCall := {
  function : option FunctionCall }.

Record Message := {
  role : option string;          (* sent by the server, never read *)
  content : option string;
  tool_calls : option (list ToolCall) }.

Record Choice := {
  message : option Message;
  finish_reason : option string }.

Record Usage := {
  prompt_tokens : option number;
  completion_tokens : option number;
  total_tokens : option number }.

Record Response := {
  choices : option (list Choice);
  usage : option Usage }.

End OpenAI.

(** ** The adapter *)

Record LocalLLMContentGenerator := {
  endpoint : string;
  model : string;
  apiKey : option string }.

(** [o || d] on an optional string and on an optional number. *)
Definition or_string (o : option string) (d : string) : string :=
  match o with
  | Some s => if string_truthy s then s else d
  | None => d
  end.

Definition or_number (o : option number) (d : number) : number :=
  match o with
  | Some n => if number_truthy n then n else d
  | None => d
  end.

Definition or_value (o : option value) (d : value) : value :=
  match o with
  | Some v => if truthy v then v else d
  | None => d
  end.

(** [o?.f] *)
Definition chain {A B} (o : option A) (f : A -> option B) : option B :=
  match o with
  | Some a => f a
  | None => None
  end.

Definition of_option (o : option string) : value :=
  match o with
  | Some s => VStr s
  | None => VUndefined
  end.

(** Template-literal interpolation of an optional string. *)
Definition interpolate (o : option string) : string :=
  match o with
  | Some s => s
  | None => "undefined"
  end.

Fixpoint extractText (input : ContentUnion) : string :=
  match input with
  | Str s => s
  | Arr items => join "" (filter string_truthy (map extractText items))
  | Obj _ text parts | ObjUndefinedRole text parts =>
      let from_parts :=
        match parts with
        | Some p => if content_truthy p then extractText p else ""
        | None => ""
        end in
      match text with
      | Some t => if string_truthy t then t else from_parts
      | None => from_parts
      end
  | Absent => ""
  end.

Definition chat_message (role content : string) : value :=
  VObj [("role", VStr role); ("content", VStr content)].

(** One iteration of the loop over [contents]: [messages] after the body
    has run on [content].  An object takes the second branch when it has a
    [role] property, whatever the property holds; a role of [undefined] is
    not ['model'] and is pushed as it is. *)
Definition push_turn (messages : list value) (content : ContentUnion) : list value :=
  match content with
  | Str s => messages ++ [chat_message "user" s]
  | Obj (Some r) _ parts =>
      let role := if String.eqb r "model" then "assistant" else r in
      let text :=
        extractText (match parts with Some p => p | None => Absent end) in
      if string_truthy text then messages ++ [chat_message role text]
      else messages
  | ObjUndefinedRole _ parts =>
      let role := VUndefined in
      let text :=
        extractText (match parts with Some p => p | None => Absent end) in
      if string_truthy text
      then messages ++ [VObj [("role", role); ("content", VStr text)]]
      else messages
  | _ => messages
  end%list.

Definition convertToOpenAIFormat
    (this : LocalLLMContentGenerator) (request : Genai.GenerateContentParameters)
  : value :=
  let messages : list value := [] in
  let systemInstruction :=
    match Genai.config request with
    | Some c => Genai.systemInstruction c
    | None => Absent
    end in
  let messages :=
    if content_truthy systemInstruction
    then (messages ++ [chat_message "system" (extractText systemInstruction)])%list
    else messages in
  let messages :=
    if content_truthy (Genai.contents request) then
      let contents :=
        match Genai.contents request with
        | Arr items => items
        | c => [c]
        end in
      fold_left push_turn contents messages
    else messages in
  VObj [("model", VStr (model this));
        ("messages", VArr messages);
        ("max_tokens",
          VNum (or_number (chain (Genai.config request) Genai.maxOutputTokens) (num 4096)));
        ("temperature",
          VNum (or_number (chain (Genai.config request) Genai.temperature) (Finite 7 (-1))));
        ("top_p",
          VNum (or_number (chain (Genai.config request) Genai.topP) (num 1)));
        ("stream", VBool false)].

(** The body of the inner loop of [convertToolsToOpenAIFormat]. *)
Definition push_declaration (openaiTools : list value) (func : Genai.FunctionDeclaration)
  : list value :=
  let properties :=
    or_value (chain (Genai.parameters func) Genai.properties) (VObj []) in
  let required :=
    or_value (chain (Genai.parameters func) Genai.required) (VArr []) in
  let parameters :=
    VObj [("type", VStr "object"); ("properties", properties); ("required", required)] in
  (openaiTools ++
   [VObj [("type", VStr "function");
          ("function",
            VObj [("name", of_option (Genai.name func));
                  ("description",
                    VStr (or_string (Genai.description func)
                            ("Execute " ++ interpolate (Genai.name func))));
                  ("parameters", parameters)])]])%list.

(** A private method with no caller in the class. *)
Definition convertToolsToOpenAIFormat (geminiTools : list Genai.Tool) : list value :=
  fold_left
    (fun openaiTools tool =>
       match Genai.functionDeclarations tool with
       | Some declarations => fold_left push_declaration declarations openaiTools
       | None => openaiTools
       end)
    geminiTools [].

Definition usageMetadata (openaiResponse : OpenAI.Response) : value :=
  let usage := OpenAI.usage openaiResponse in
  VObj [("promptTokenCount",
          VNum (or_number (chain usage OpenAI.prompt_tokens) (num 0)));
        ("candidatesTokenCount",
          VNum (or_number (chain usage OpenAI.completion_tokens) (num 0)));
        ("totalTokenCount",
          VNum (or_number (chain usage OpenAI.total_tokens) (num 0)))].

Definition convertFromOpenAIFormat (openaiResponse : OpenAI.Response) : result value :=
  match chain (OpenAI.choices openaiResponse) (fun l => nth_error l 0) with
  | None => Throw (Error "No choices in OpenAI response")
  | Some choice =>
      let text := or_string (chain (OpenAI.message choice) OpenAI.content) "" in
      let finishReason := or_string (OpenAI.finish_reason choice) "stop" in
      let toolCalls := chain (OpenAI.message choice) OpenAI.tool_calls in
      match toolCalls with
      | Some (functionCall :: _) =>
          args <-
            match JSON_parse
                    (or_string (chain (OpenAI.function functionCall) OpenAI.arguments) "{}")
            with
            | Some v => Ok v
            | None => Throw SyntaxError
            end ;;
          let functionCallPart :=
            VObj [("functionCall",
                    VObj [("name",
                            of_option (chain (OpenAI.function functionCall) OpenAI.name));
                          ("args", args)])] in
          Ok (VObj
                [("candidates",
                   VArr [VObj [("content",
                                 VObj [("parts",
                                         VArr (if string_truthy text
                                               then [VObj [("text", VStr text)];
                                                     functionCallPart]
                                               else [functionCallPart]));
                                       ("role", VStr "model")]);
                               ("finishReason", VStr "STOP");
                               ("index", VNum (num 0))]]);
                 ("usageMetadata", usageMetadata openaiResponse);
                 ("text", VStr text);
                 ("data", VUndefined);
                 ("functionCalls", VArr [get "functionCall" functionCallPart]);
                 ("executableCode", VUndefined);
                 ("codeExecutionResult", VUndefined)])
      | _ =>
          Ok (VObj
                [("candidates",
                   VArr [VObj [("content",
                                 VObj [("parts", VArr [VObj [("text", VStr text)]]);
                                       ("role", VStr "model")]);
                               ("finishReason", VStr (toUpperCase finishReason));
                               ("index", VNum (num 0))]]);
                 ("usageMetadata", usageMetadata openaiResponse);
                 ("text", VStr text);
                 ("data", VUndefined);
                 ("functionCalls", VArr []);
                 ("executableCode", VUndefined);
                 ("codeExecutionResult", VUndefined)])
      end
  end.

(** [Math.ceil(text.length / 4)] *)
Definition estimate (text : string) : Z :=
  Qceiling (Z.of_nat (String.length text) # 4).

Definition countTokens (request : CountTokensParameters.t) : result value :=
  let contents := CountTokensParameters.contents request in
  match JSON_stringify (if truthy contents then contents else VStr "") with
  | Some text =>
      let estimatedTokens := estimate text in
      Ok (VObj [("totalTokens", VNum (num estimatedTokens))])
  | None => Throw TypeError      (* [.length] of undefined *)
  end.

(** ** Transport *)

Module Http.

Record RequestInit := {
  method : string;
  headers : list (string * string);
  body : option string }.

(** What the adapter reads of a fetch [Response]: [json()] is the body
    decoded to the wire shape, or the rejection of the decoder. *)
Record Response := {
  ok : bool;
  status : number;
  text : result string;
  json : result OpenAI.Response }.

End Http.

(** The generator object of [(async function* () { yield response; })()]:
    the response its body captures and the point where the body is
    suspended. *)
Inductive GeneratorState : Type :=
| SuspendedStart
| SuspendedYield
| Completed.

Record AsyncGenerator := {
  captured : value;
  state : GeneratorState }.

(** [{value, done}] *)
Record IteratorResult := {
  value_of : value;
  done : bool }.

(** [g.next()]: the body runs to its [yield], then to its end. *)
Definition next (g : AsyncGenerator) : IteratorResult * AsyncGenerator :=
  match state g with
  | SuspendedStart =>
      ({| value_of := captured g; done := false |},
       {| captured := captured g; state := SuspendedYield |})
  | SuspendedYield | Completed =>
      ({| value_of := VUndefined; done := true |},
       {| captured := captured g; state := Completed |})
  end.

(** [for await (const item of g)]: the items received until the generator
    reports [done], within [fuel] calls of [next]. *)
Fixpoint collect (fuel : nat) (g : AsyncGenerator) : option (list value) :=
  match fuel with
  | O => None
  | S fuel' =>
      let '(r, g') := next g in
      if done r then Some []
      else
        match collect fuel' g' with
        | Some items => Some (value_of r :: items)
        | None => None
        end
  end.

(** [try { r } catch (error) { handler error }] *)
Definition try_catch {A} (r : result A) (handler : exn -> result A) : result A :=
  match r with
  | Ok a => Ok a
  | Throw e => handler e
  end.

Section Generate.

(** The network: [fetch(url, init)]. *)
Variable fetch : string -> Http.RequestInit -> result Http.Response.

Definition generateContent
    (this : LocalLLMContentGenerator) (request : Genai.GenerateContentParameters)
  : result value :=
  let openaiRequest := convertToOpenAIFormat this request in
  let headers := [("Content-Type", "application/json")] in
  let headers :=
    match apiKey this with
    | Some key =>
        if string_truthy key
        then app headers [("Authorization", "Bearer " ++ key)]
        else headers
    | None => headers
    end in
  try_catch
    (response <-
       fetch (endpoint this ++ "/chat/completions")
         {| Http.method := "POST";
            Http.headers := headers;
            Http.body := JSON_stringify openaiRequest |} ;;
     if negb (Http.ok response) then
       message <- Http.text response ;;
       Throw (Error ("HTTP error! status: " ++ Number_toString (Http.status response)
                     ++ ", message: " ++ message))
     else
       data <- Http.json response ;;
       convertFromOpenAIFormat data)
    (fun error => Throw error).

Definition generateContentStream
    (this : LocalLLMContentGenerator) (request : Genai.GenerateContentParameters)
  : result AsyncGenerator :=
  response <- generateContent this request ;;
  Ok {| captured := response; state := SuspendedStart |}.

End Generate.

(** ** Vocabulary of the statements *)

(** The own property names of an object literal. *)
Definition keys (o : value) : list string :=
  match o with
  | VObj fields => map fst fields
  | _ => []
  end.

(** The turns the loop of [convertToOpenAIFormat] visits: none when
    [contents] is falsy, the elements of a sequence, else the single value. *)
Definition turns (contents : ContentUnion) : list ContentUnion :=
  match contents with
  | Absent | Str "" => []
  | Arr items => items
  | c => [c]
  end.

(** The system message, when there is a truthy system instruction. *)
Definition system_messages (request : Genai.GenerateContentParameters) : list value :=
  match Genai.config request with
  | Some c =>
      match Genai.systemInstruction c with
      | Absent | Str "" => []
      | instruction => [chat_message "system" (extractText instruction)]
      end
  | None => []
  end.

(** Zero (of either sign) and NaN: the numbers [||] replaces. *)
Definition zero_or_NaN (n : number) : bool :=
  match n with
  | Finite Z0 _ | NaN => true
  | _ => false
  end.

(** [o ?? d], the operator the specification names. *)
Definition nullish_or (o : option string) (d : string) : string :=
  match o with
  | Some s => s
  | None => d
  end.

Definition first_choice (openaiResponse : OpenAI.Response) : option OpenAI.Choice :=
  match OpenAI.choices openaiResponse with
  | Some (choice :: _) => Some choice
  | _ => None
  end.

Definition first_tool_call (choice : OpenAI.Choice) : option OpenAI.ToolCall :=
  match OpenAI.message choice with
  | Some m =>
      match OpenAI.tool_calls m with
      | Some (functionCall :: _) => Some functionCall
      | _ => None
      end
  | None => None
  end.

(** The first tool call carries a non-empty [arguments] string that is not
    a JSON text. *)
Definition malformed_arguments (openaiResponse : OpenAI.Response) : Prop :=
  exists choice functionCall s,
    first_choice openaiResponse = Some choice
    /\ first_tool_call choice = Some functionCall
    /\ chain (OpenAI.function functionCall) OpenAI.arguments = Some s
    /\ s <> ""
    /\ JSON_parse s = None.

(** ** Sample inputs *)

Definition adapter : LocalLLMContentGenerator :=
  {| endpoint := "http://localhost:1234/v1"; model := "local"; apiKey := None |}.

Definition request_of (contents : ContentUnion) : Genai.GenerateContentParameters :=
  {| Genai.contents := contents; Genai.config := None |}.

(** [{contents: 'hi', config: {maxOutputTokens: 0, temperature: 0, topP: 0}}] *)
Definition zero_sampling_request : Genai.GenerateContentParameters :=
  {| Genai.contents := Str "hi";
     Genai.config :=
       Some {| Genai.systemInstruction := Absent;
               Genai.maxOutputTokens := Some (num 0);
               Genai.temperature := Some (num 0);
               Genai.topP := Some (num 0);
               Genai.tools := None |} |}.

(** [{functionDeclarations: [{name: 'foo'}]}] *)
Definition foo_tool : Genai.Tool :=
  {| Genai.functionDeclarations :=
       Some [{| Genai.name := Some "foo";
                Genai.description := None;
                Genai.parameters := None |}] |}.

(** [{contents: 'hi', config: {tools: [foo_tool]}}] *)
Definition tools_request : Genai.GenerateContentParameters :=
  {| Genai.contents := Str "hi";
     Genai.config :=
       Some {| Genai.systemInstruction := Absent;
               Genai.maxOutputTokens := None;
               Genai.temperature := None;
               Genai.topP := None;
               Genai.tools := Some [foo_tool] |} |}.

(** A wire response with one choice, finish reason [tool_calls], and one
    tool call to [foo] with the given [arguments]. *)
Definition foo_call (arguments : option string) : OpenAI.ToolCall :=
  {| OpenAI.function :=
       Some {| OpenAI.name := Some "foo"; OpenAI.arguments := arguments |} |}.

Definition foo_choice (arguments : option string) : OpenAI.Choice :=
  {| OpenAI.message :=
       Some {| OpenAI.role := Some "assistant";
               OpenAI.content := None;
               OpenAI.tool_calls := Some [foo_call arguments] |};
     OpenAI.finish_reason := Some "tool_calls" |}.

Definition foo_response (arguments : option string) : OpenAI.Response :=
  {| OpenAI.choices := Some [foo_choice arguments]; OpenAI.usage := None |}.

(** A wire response with one plain-text choice and no usage. *)
Definition text_response (content : string) : OpenAI.Response :=
  {| OpenAI.choices :=
       Some [{| OpenAI.message :=
                  Some {| OpenAI.role := Some "assistant";
                          OpenAI.content := Some content;
                          OpenAI.tool_calls := None |};
                OpenAI.finish_reason := Some "stop" |}];
     OpenAI.usage := None |}.

(** What the adapter returns for [text_response "hello"]. *)
Definition hello_response : value :=
  VObj [("candidates",
          VArr [VObj [("content",
                        VObj [("parts", VArr [VObj [("text", VStr "hello")]]);
                              ("role", VStr "model")]);
                      ("finishReason", VStr "STOP");
                      ("index", VNum (num 0))]]);
        ("usageMetadata",
          VObj [("promptTokenCount", VNum (num 0));
                ("candidatesTokenCount", VNum (num 0));
                ("totalTokenCount", VNum (num 0))]);
        ("text", VStr "hello");
        ("data", VUndefined);
        ("functionCalls", VArr []);
        ("executableCode", VUndefined);
        ("codeExecutionResult", VUndefined)].

(** [{choices: []}] *)
Definition no_choices_response : OpenAI.Response :=
  {| OpenAI.choices := Some []; OpenAI.usage := None |}.

(** The server that answers every request with status 200 and the given
    wire response. *)
Definition answering (openaiResponse : OpenAI.Response)
  : string -> Http.RequestInit -> result Http.Response :=
  fun _ _ =>
    Ok {| Http.ok := true;
          Http.status := num 200;
          Http.text := Throw (Rejected "body already used");
          Http.json := Ok openaiResponse |}.

(** ** The helpers for function calls *)

(** [Part] of @google/genai, with the two properties the helpers read. *)
Module FunctionCall.

Record t := {
  name : option string;
  args : option value }.

End FunctionCall.

Module FunctionResponse.

Record t := {
  name : option string;
  response : option value }.

End FunctionResponse.

Module Part.

Record t := {
  functionCall : option FunctionCall.t;
  functionResponse : option FunctionResponse.t }.

End Part.

(** [call_${Math.random().toString(36).substr(2, 9)}]; [drawn] is the text
    [Math.random().toString(36)] evaluates to when the identifier is made. *)
Definition random_call_id (drawn : string) : string :=
  "call_" ++ substring 2 9 drawn.

Fixpoint extractFunctionCall (drawn : string) (parts : list Part.t) : value :=
  match parts with
  | [] => VNull
  | part :: rest =>
      match Part.functionCall part with
      | Some call =>
          let callId := random_call_id drawn in
          VObj [("id", VStr callId);
                ("type", VStr "function");
                ("function",
                  VObj [("name", of_option (FunctionCall.name call));
                        ("arguments",
                          of_option
                            (JSON_stringify (or_value (FunctionCall.args call) (VObj []))))])]
      | None => extractFunctionCall drawn rest
      end
  end.

Fixpoint extractFunctionResult (drawn : string) (parts : list Part.t) : value :=
  match parts with
  | [] => VNull
  | part :: rest =>
      match Part.functionResponse part with
      | Some reply =>
          VObj [("id",
                  VStr (or_string (FunctionResponse.name reply) (random_call_id drawn)));
                ("result",
                  of_option
                    (JSON_stringify
                       (or_value (FunctionResponse.response reply) (VObj []))))]
      | None => extractFunctionResult drawn rest
      end
  end.

(** ** The earlier revision of the class, kept in the repository beside the
    current one: its response decoder has no tool-call branch. *)

Module Legacy.

Definition convertFromOpenAIFormat (openaiResponse : OpenAI.Response) : result value :=
  match chain (OpenAI.choices openaiResponse) (fun l => nth_error l 0) with
  | None => Throw (Error "No choices in OpenAI response")
  | Some choice =>
      let text := or_string (chain (OpenAI.message choice) OpenAI.content) "" in
      let finishReason := or_string (OpenAI.finish_reason choice) "stop" in
      Ok (VObj
            [("candidates",
               VArr [VObj [("content",
                             VObj [("parts", VArr [VObj [("text", VStr text)]]);
                                   ("role", VStr "model")]);
                           ("finishReason", VStr (toUpperCase finishReason));
                           ("index", VNum (num 0))]]);
             ("usageMetadata", usageMetadata openaiResponse);
             ("text", VStr text);
             ("data", VUndefined);
             ("functionCalls", VArr []);
             ("executableCode", VUndefined);
             ("codeExecutionResult", VUndefined)])
  end.

End Legacy.

(** ** Vocabulary of the further statements *)

(** The function spec [convertToolsToOpenAIFormat] pushes for one
    declaration. *)
Definition function_spec (func : Genai.FunctionDeclaration) : list value :=
  push_declaration [] func.

Definition declarations (tool : Genai.Tool) : list Genai.FunctionDeclaration :=
  match Genai.functionDeclarations tool with
  | Some l => l
  | None => []
  end.

(** The shape every function spec has. *)
Definition well_formed_spec (spec : value) : Prop :=
  keys spec = ["type"; "function"]
  /\ get "type" spec = VStr "function"
  /\ keys (get "function" spec) = ["name"; "description"; "parameters"]
  /\ (exists d, get "description" (get "function" spec) = VStr d /\ d <> "")
  /\ keys (get "parameters" (get "function" spec)) = ["type"; "properties"; "required"]
  /\ get "type" (get "parameters" (get "function" spec)) = VStr "object"
  /\ truthy (get "properties" (get "parameters" (get "function" spec))) = true
  /\ truthy (get "required" (get "parameters" (get "function" spec))) = true.

(** The shape every chat message of a payload has: exactly a [role], which
    is [undefined] or a string other than [model], and a string [content],
    which is empty only under the role [user] or [system]. *)
Definition well_formed_message (m : value) : Prop :=
  exists role content,
    m = VObj [("role", role); ("content", VStr content)]
    /\ (role = VUndefined \/ exists r, role = VStr r /\ r <> "model")
    /\ (content = "" -> role = VStr "user" \/ role = VStr "system").

(** A turn whose [role] property holds [undefined] and whose parts carry
    text. *)
Definition undefined_role_turn (turn : ContentUnion) : Prop :=
  exists text parts,
    turn = ObjUndefinedRole text (Some parts) /\ extractText parts <> "".

Definition undefined_role (m : value) : Prop := get "role" m = VUndefined.

(** A wire response cut down to its first choice and that choice's first
    tool call. *)
Definition first_only (openaiResponse : OpenAI.Response) : OpenAI.Response :=
  let cut_message (m : OpenAI.Message) :=
    {| OpenAI.role := OpenAI.role m;
       OpenAI.content := OpenAI.content m;
       OpenAI.tool_calls := option_map (firstn 1) (OpenAI.tool_calls m) |} in
  let cut_choice (c : OpenAI.Choice) :=
    {| OpenAI.message := option_map cut_message (OpenAI.message c);
       OpenAI.finish_reason := OpenAI.finish_reason c |} in
  {| OpenAI.choices :=
       option_map (fun l => map cut_choice (firstn 1 l)) (OpenAI.choices openaiResponse);
     OpenAI.usage := OpenAI.usage openaiResponse |}.

(** A reply cut short by the token limit, with an empty list of tool
    calls, and what the adapter returns for it. *)
Definition cut_response : OpenAI.Response :=
  {| OpenAI.choices :=
       Some [{| OpenAI.message :=
                  Some {| OpenAI.role := None;
                          OpenAI.content := Some "cut";
                          OpenAI.tool_calls := Some [] |};
                OpenAI.finish_reason := Some "length" |}];
     OpenAI.usage := None |}.

Definition cut_reply : value :=
  VObj [("candidates",
          VArr [VObj [("content",
                        VObj [("parts", VArr [VObj [("text", VStr "cut")]]);
                              ("role", VStr "model")]);
                      ("finishReason", VStr "LENGTH");
                      ("index", VNum (num 0))]]);
        ("usageMetadata",
          VObj [("promptTokenCount", VNum (num 0));
                ("candidatesTokenCount", VNum (num 0));
                ("totalTokenCount", VNum (num 0))]);
        ("text", VStr "cut");
        ("data", VUndefined);
        ("functionCalls", VArr []);
        ("executableCode", VUndefined);
        ("codeExecutionResult", VUndefined)].

(** A server that is down for maintenance, and a client with a key. *)
Definition unavailable : Http.Response :=
  {| Http.ok := false;
     Http.status := num 503;
     Http.text := Ok "down";
     Http.json := Ok (text_response "hello") |}.

Definition keyed_adapter : LocalLLMContentGenerator :=
  {| endpoint := "http://localhost:1234/v1"; model := "local"; apiKey := Some "secret" |}.

(** A transport that answers [hello] at one address and rejects elsewhere. *)
Definition only_at (url : string) : string -> Http.RequestInit -> result Http.Response :=
  fun url' init =>
    if String.eqb url url' then answering (text_response "hello") url' init
    else Throw (Rejected "unreachable").

(** A text part, a call to [foo] without arguments, and the result of a
    call to [foo]. *)
Definition plain_part : Part.t :=
  {| Part.functionCall := None; Part.functionResponse := None |}.

Definition call_part (call : FunctionCall.t) : Part.t :=
  {| Part.functionCall := Some call; Part.functionResponse := None |}.

Definition result_part (reply : FunctionResponse.t) : Part.t :=
  {| Part.functionCall := None; Part.functionResponse := Some reply |}.

Definition foo_without_arguments : FunctionCall.t :=
  {| FunctionCall.name := Some "foo"; FunctionCall.args := None |}.

Definition foo_result : FunctionResponse.t :=
  {| FunctionResponse.name := Some "foo";
     FunctionResponse.response := Some (VObj [("ok", VBool true)]) |}.

(** An integer written with at most 21 digits: a number the serialiser
    prints as its plain decimal digits. *)
Definition plain_number (n : number) : bool :=
  match n with
  | Finite Z0 e => (e =? 0)%Z
  | Finite (Zpos p) e | Finite (Zneg p) e =>
      (e =? 0)%Z && Nat.leb (String.length (digits p)) 21
  | _ => false
  end.

(** Data made of null, booleans, such integers, strings, arrays and objects
    with distinct keys. *)
Fixpoint distinct (names : list string) : bool :=
  match names with
  | [] => true
  | k :: rest => negb (existsb (String.eqb k) rest) && distinct rest
  end.

Fixpoint plain_json (v : value) : bool :=
  match v with
  | VUndefined => false
  | VNum n => plain_number n
  | VNull | VBool _ | VStr _ => true
  | VArr items => forallb plain_json items
  | VObj fields =>
      distinct (map fst fields)
      && (fix all (fs : list (string * value)) : bool :=
            match fs with
            | [] => true
            | (_, v) :: rest => plain_json v && all rest
            end) fields
  end.

(** The calls of the parser a value costs. *)
Fixpoint json_size (v : value) : nat :=
  match v with
  | VArr items => S (fold_right (fun v n => S (json_size v + n)) 0 items)
  | VObj fields =>
      S ((fix sum (fs : list (string * value)) : nat :=
            match fs with
            | [] => 0
            | (_, v) :: rest => S (json_size v + sum rest)
            end) fields)
  | _ => 1
  end.

Definition elements_size (items : list value) : nat :=
  fold_right (fun v n => S (json_size v + n)) 0 items.

Fixpoint members_size (fields : list (string * value)) : nat :=
  match fields with
  | [] => 0
  | (_, v) :: rest => S (json_size v + members_size rest)
  end.

(** The serialisation of an array element and of the members of an object,
    as [JSON_stringify] computes them. *)
Definition element_text (v : value) : string :=
  match JSON_stringify v with Some t => t | None => "null" end.

Fixpoint members_text (fields : list (string * value)) : list string :=
  match fields with
  | [] => []
  | (k, v) :: rest =>
      match JSON_stringify v with
      | Some t => (quote k ++ ":" ++ t) :: members_text rest
      | None => members_text rest
      end
  end.

(** The first character of the serialisation of plain data tells its kind. *)
Inductive value_start : string -> Prop :=
| start_string s : value_start (String dquote s)
| start_array s : value_start (String "[" s)
| start_object s : value_start (String "{" s)
| start_true s : value_start (String "t" s)
| start_false s : value_start (String "f" s)
| start_null s : value_start (String "n" s)
| start_minus s : value_start (String "-" s)
| start_digit c s : is_digit c = true -> value_start (String c s).

(** Text that can follow a number: nothing, or a character that is not a
    digit, a point or an exponent mark. *)
Definition delimited (rest : string) : bool :=
  match rest with
  | "" => true
  | String c _ =>
      negb (is_digit c || Ascii.eqb c "." || Ascii.eqb c "e" || Ascii.eqb c "E")
  end.

(** The number a run of decimal digits denotes after [acc]. *)
Fixpoint uint_value (d : Decimal.uint) (acc : Z) : Z :=
  match d with
  | Decimal.Nil => acc
  | Decimal.D0 d => uint_value d (10 * acc + 0)
  | Decimal.D1 d => uint_value d (10 * acc + 1)
  | Decimal.D2 d => uint_value d (10 * acc + 2)
  | Decimal.D3 d => uint_value d (10 * acc + 3)
  | Decimal.D4 d => uint_value d (10 * acc + 4)
  | Decimal.D5 d => uint_value d (10 * acc + 5)
  | Decimal.D6 d => uint_value d (10 * acc + 6)
  | Decimal.D7 d => uint_value d (10 * acc + 7)
  | Decimal.D8 d => uint_value d (10 * acc + 8)
  | Decimal.D9 d => uint_value d (10 * acc + 9)
  end%Z.

(** The parser reads a value back from its serialisation, whatever text
    follows, given fuel for its size. *)
Definition reads_back (v : value) : Prop :=
  exists t,
    JSON_stringify v = Some t
    /\ value_start t
    /\ json_size v <= String.length t
    /\ forall fuel rest,
         delimited rest = true ->
         json_size v <= fuel -> parse_value fuel (t ++ rest) = Some (v, rest).

(** A wire response whose only choice carries the given tool call. *)
Definition calling (toolCall : OpenAI.ToolCall) (content finish : option string)
    (usage : option OpenAI.Usage) : OpenAI.Response :=
  {| OpenAI.choices :=
       Some [{| OpenAI.message :=
                  Some {| OpenAI.role := Some "assistant";
                          OpenAI.content := content;
                          OpenAI.tool_calls := Some [toolCall] |};
                OpenAI.finish_reason := finish |}];
     OpenAI.usage := usage |}.

(** A call to [search] with a nested argument object. *)
Definition search_call : FunctionCall.t :=
  {| FunctionCall.name := Some "search";
     FunctionCall.args :=
       Some (VObj [("query", VStr "rocq");
                   ("limit", VNum (num 10));
                   ("exact", VBool true);
                   ("tags", VArr [VStr "a"; VNull; VNum (num (-3))])]) |}.

(** The function calls among the parts of a candidate. *)
Definition function_calls_of (parts : value) : list value :=
  match parts with
  | VArr items =>
      flat_map (fun part => if has "functionCall" part then [get "functionCall" part] else [])
        items
  | _ => []
  end.

(** A wire usage count as the adapter reports it. *)
Definition reported (count : option number) : number :=
  match count with
  | Some (Finite Z0 _) | Some NaN | None => Finite 0 0
  | Some n => n
  end.

(** A reply with usage counts, one of them zero and one missing. *)
Definition counted_response : OpenAI.Response :=
  {| OpenAI.choices := OpenAI.choices (text_response "hello");
     OpenAI.usage :=
       Some {| OpenAI.prompt_tokens := Some (num 12);
               OpenAI.completion_tokens := Some (Finite 0 3);
               OpenAI.total_tokens := None |} |}.

(** The call [generateContent] makes: where, and with which headers. *)
Definition request_url (this : LocalLLMContentGenerator) : string :=
  endpoint this ++ "/chat/completions".

Definition request_headers (this : LocalLLMContentGenerator) : list (string * string) :=
  ("Content-Type", "application/json")
  :: match apiKey this with
     | Some (String c key) => [("Authorization", "Bearer " ++ String c key)]
     | _ => []
     end.

Definition request_init
    (this : LocalLLMContentGenerator) (request : Genai.GenerateContentParameters)
  : Http.RequestInit :=
  {| Http.method := "POST";
     Http.headers := request_headers this;
     Http.body := JSON_stringify (convertToOpenAIFormat this request) |}.

(** The transport that gives every request the same reply, and the one that
    always rejects. *)
Definition replying (reply : Http.Response)
  : string -> Http.RequestInit -> result Http.Response :=
  fun _ _ => Ok reply.

Definition rejecting (e : exn) : string -> Http.RequestInit -> result Http.Response :=
  fun _ _ => Throw e.

(** A returned object of the shapes of [Content] and [Part], as
    [extractText] and the loop over [contents] see it when it is sent back
    in a later request: its [role] (a string, or a property that holds
    [undefined]), its string [text] and its [parts]. *)
Fixpoint as_content (v : value) : ContentUnion :=
  match v with
  | VStr s => Str s
  | VArr items => Arr (map as_content items)
  | VObj fields =>
      let fix parts_of (fs : list (string * value)) : option ContentUnion :=
        match fs with
        | [] => None
        | (k, p) :: rest =>
            if String.eqb "parts" k then Some (as_content p) else parts_of rest
        end in
      let text :=
        match assoc "text" fields with Some (VStr t) => Some t | _ => None end in
      match assoc "role" fields with
      | Some (VStr r) => Obj (Some r) text (parts_of fields)
      | Some VUndefined => ObjUndefinedRole text (parts_of fields)
      | _ => Obj None text (parts_of fields)
      end
  | _ => Absent
  end.

(** The text part [{text: t}]. *)
Definition text_part (t : string) : ContentUnion := Obj None (Some t) None.

(** A wire tool call read from the object [extractFunctionCall] returns. *)
Definition as_tool_call (v : value) : OpenAI.ToolCall :=
  {| OpenAI.function :=
       match get "function" v with
       | VObj fields =>
           Some {| OpenAI.name :=
                     match assoc "name" fields with Some (VStr n) => Some n | _ => None end;
                   OpenAI.arguments :=
                     match assoc "arguments" fields with
                     | Some (VStr a) => Some a
                     | _ => None
                     end |}
       | _ => None
       end |}.

(** * Properties *)

(** ** Strings *)

Lemma append_empty_r (s : string) : s ++ "" = s.
Proof. induction s as [|c s IH]; simpl; [reflexivity | now rewrite IH]. Qed.

Lemma append_assoc (a b c : string) : (a ++ b) ++ c = a ++ (b ++ c).
Proof. induction a as [|x a IH]; simpl; [reflexivity | now rewrite IH]. Qed.

Lemma string_truthy_false (s : string) : string_truthy s = false <-> s = "".
Proof. destruct s; simpl; split; congruence. Qed.

Lemma join_empty_cons (s : string) (l : list string) :
  join "" (s :: l) = s ++ join "" l.
Proof.
  destruct l as [|t l]; simpl; [now rewrite append_empty_r | reflexivity].
Qed.

(** Dropping the empty strings does not change a separator-free join. *)
Lemma join_filter_truthy (l : list string) :
  join "" (filter string_truthy l) = fold_right append "" l.
Proof.
  induction l as [|s l IH]; [reflexivity|].
  cbn [filter fold_right].
  destruct s as [|c s].
  - simpl. exact IH.
  - cbn [string_truthy]. now rewrite join_empty_cons, IH.
Qed.

Lemma fold_right_append_app (l1 l2 : list string) :
  fold_right append "" (l1 ++ l2)%list
  = fold_right append "" l1 ++ fold_right append "" l2.
Proof.
  induction l1 as [|s l1 IH]; simpl; [reflexivity|].
  now rewrite IH, append_assoc.
Qed.

(** ** The runtime functions *)

Example JSON_parse_object :
  JSON_parse (json_text "{'x':1}") = Some (VObj [("x", VNum (num 1))]).
Proof. reflexivity. Qed.

Example JSON_parse_nested :
  JSON_parse (json_text " { 'a' : [1, 2.50e3, -0.7, true, null, 'q\n'], 'b': {} } ")
  = Some (VObj [("a", VArr [VNum (Finite 1 0); VNum (Finite 250 1); VNum (Finite (-7) (-1));
                            VBool true; VNull; VStr (String "q" (String "010" ""))]);
                ("b", VObj [])]).
Proof. reflexivity. Qed.

Example JSON_parse_rejects :
  map JSON_parse [""; "[1,]"; "01"; "nul"; "1 2"; json_text "{'a':1,}"; json_text "'abc"]
  = [None; None; None; None; None; None; None].
Proof. reflexivity. Qed.

(** Escapes above 255, surrogates included, are read, not rejected. *)
Example JSON_parse_unicode_escapes :
  JSON_parse (json_text "{'k':'\u20ac'}")
  = Some (VObj [("k", VStr (String "226" (String "130" (String "172" ""))))])
  /\ JSON_parse (json_text "['\u00e9', '\u0100', '\ud83d\ude00', '\uDFFF']")
     = Some (VArr [VStr (String "233" "");
                   VStr (String "196" (String "128" ""));
                   VStr (String "237" (String "160" (String "189"
                           (String "237" (String "184" (String "128" ""))))));
                   VStr (String "237" (String "191" (String "191" "")))])
  /\ JSON_parse (json_text "'\u20a'") = None.
Proof. repeat split; reflexivity. Qed.

Example Number_toString_samples :
  map Number_toString
    [Finite 7 (-1); Finite 4096 0; Finite 1 21; Finite 125 (-9); Finite (-15) (-7); NaN]
  = ["0.7"; "4096"; "1e+21"; "1.25e-7"; "-0.0000015"; "NaN"].
Proof. reflexivity. Qed.

Example JSON_stringify_sample :
  JSON_stringify
    (VObj [("a", VArr [VNum (num 1); VUndefined; VStr "x"]);
           ("b", VUndefined);
           ("c", VBool true)])
  = Some (json_text "{'a':[1,null,'x'],'c':true}").
Proof. reflexivity. Qed.

Example toUpperCase_sample : toUpperCase "tool_calls" = "TOOL_CALLS".
Proof. reflexivity. Qed.

(** An escape [\uXXXX] of four hexadecimal digits never makes a string
    literal fail. *)
Lemma parse_string_unicode_escape (a b c d : ascii) (n : nat) (rest : string) :
  hex4 a b c d = Some n ->
  parse_string (String "\" (String "u" (String a (String b (String c (String d rest))))))
  = if Nat.ltb n 256 then prepend (ascii_of_nat n) (parse_string rest)
    else prepend_all (utf8 n) (parse_string rest).
Proof. intros H. cbn. now rewrite H. Qed.

Lemma parse_string_unicode_escape_fails (a b c d : ascii) (n : nat) (rest : string) :
  hex4 a b c d = Some n ->
  parse_string (String "\" (String "u" (String a (String b (String c (String d rest))))))
  = None <-> parse_string rest = None.
Proof.
  intros H. rewrite (parse_string_unicode_escape _ _ _ _ _ _ H).
  destruct (Nat.ltb n 256), (parse_string rest) as [[str r]|];
    cbn [prepend prepend_all]; split; congruence.
Qed.

(** Reading back an escaped code unit. *)
Lemma parse_string_escape (c : ascii) (rest : string) :
  parse_string (escape c ++ rest) = prepend c (parse_string rest).
Proof.
  destruct c as [[|] [|] [|] [|] [|] [|] [|] [|]]; reflexivity.
Qed.

Lemma parse_string_escape_all (s rest : string) :
  parse_string (escape_all s ++ String dquote rest) = Some (s, rest).
Proof.
  induction s as [|c s IH]; [reflexivity|].
  cbn [escape_all]. rewrite append_assoc, parse_string_escape, IH.
  reflexivity.
Qed.

Lemma parse_value_string (fuel : nat) (rest : string) :
  parse_value (S fuel) (String dquote rest)
  = match parse_string rest with
    | Some (str, r) => Some (VStr str, r)
    | None => None
    end.
Proof. reflexivity. Qed.

(** [JSON.parse(JSON.stringify(s))] is [s] for every string. *)
Lemma JSON_parse_stringify_string (s : string) :
  match JSON_stringify (VStr s) with
  | Some text => JSON_parse text = Some (VStr s)
  | None => False
  end.
Proof.
  cbn [JSON_stringify]. unfold JSON_parse, quote.
  now rewrite parse_value_string, parse_string_escape_all.
Qed.

(** ** extractText *)

Lemma extractText_Arr (items : list ContentUnion) :
  extractText (Arr items) = fold_right append "" (map extractText items).
Proof. cbn [extractText]. apply join_filter_truthy. Qed.

Lemma extractText_falsy (input : ContentUnion) :
  content_truthy input = false -> extractText input = "".
Proof.
  destruct input as [|s| | |]; simpl; try congruence.
  now intros H%string_truthy_false.
Qed.

Lemma extractText_parts (parts : ContentUnion) :
  (if content_truthy parts then extractText parts else "") = extractText parts.
Proof.
  destruct (content_truthy parts) eqn:E; [reflexivity|].
  symmetry. now apply extractText_falsy.
Qed.

Lemma extractText_app (l1 l2 : list ContentUnion) :
  extractText (Arr (l1 ++ l2)) = extractText (Arr l1) ++ extractText (Arr l2).
Proof. now rewrite !extractText_Arr, map_app, fold_right_append_app. Qed.

(** C7, counterexample.  An object whose [text] field is the empty string
    and which also has a [parts] field does not return its [text] field:
    the empty text is falsy, so the parts are extracted instead. *)
Lemma extractText_empty_text_counterexample :
  extractText (Obj None (Some "") (Some (Arr [Str "x"]))) = "x"
  /\ extractText (Obj None (Some "") (Some (Arr [Str "x"]))) <> "".
Proof. split; [reflexivity | discriminate]. Qed.

(** C7, amended.  [extractText] is a total function whose rules, in order,
    are: a string returns itself; a sequence returns the separator-free,
    order-preserving concatenation of the extracted texts of its elements
    (dropping the empty ones changes nothing); an object with a non-empty
    [text] returns it, whatever its [parts]; an object whose [text] is
    absent or empty returns the text extracted from its [parts]; every
    other input returns the empty string.  The [role] of an object plays no
    part, whether a string, missing or [undefined]. *)
Theorem extractText_rules :
  (forall s, extractText (Str s) = s)
  /\ (forall items,
        extractText (Arr items)
        = join "" (filter (fun t => negb (String.eqb t "")) (map extractText items))
        /\ extractText (Arr items) = fold_right append "" (map extractText items))
  /\ (forall role c t parts,
        extractText (Obj role (Some (String c t)) parts) = String c t)
  /\ (forall role parts,
        extractText (Obj role None (Some parts)) = extractText parts
        /\ extractText (Obj role (Some "") (Some parts)) = extractText parts)
  /\ (forall role,
        extractText (Obj role None None) = ""
        /\ extractText (Obj role (Some "") None) = "")
  /\ extractText Absent = ""
  /\ (forall text parts,
        extractText (ObjUndefinedRole text parts) = extractText (Obj None text parts)).
Proof.
  split; [reflexivity|].
  split.
  { intros items. split; [|apply extractText_Arr].
    cbn [extractText]. f_equal. apply filter_ext.
    intros [|c t]; reflexivity. }
  split; [reflexivity|].
  split.
  { intros role parts. cbn [extractText string_truthy].
    split; apply extractText_parts. }
  split; [|split; reflexivity].
  intros role. split; reflexivity.
Qed.

(** C8.  [extractText] is idempotent on flat strings, and the text of a
    two-element sequence is the text of its first element followed by the
    text of its second; more generally the text of a concatenation of
    sequences is the concatenation of their texts. *)
Theorem extractText_idempotent_homomorphic :
  (forall s, extractText (Str (extractText (Str s))) = extractText (Str s))
  /\ (forall a b,
        extractText (Arr [a; b]) = extractText (Arr [a]) ++ extractText (Arr [b]))
  /\ (forall l1 l2,
        extractText (Arr (l1 ++ l2)) = extractText (Arr l1) ++ extractText (Arr l2)).
Proof.
  split; [reflexivity|]. split.
  - intros a b. exact (extractText_app [a] [b]).
  - exact extractText_app.
Qed.

(** ** convertToOpenAIFormat *)

Lemma push_turn_app (messages : list value) (content : ContentUnion) :
  push_turn messages content = (messages ++ push_turn [] content)%list.
Proof.
  destruct content as [|s|items|[r|] text parts|text parts]; cbn [push_turn];
    rewrite ?app_nil_r; try reflexivity;
    (destruct (string_truthy _); [reflexivity | now rewrite app_nil_r]).
Qed.

(** The loop appends, turn by turn, what each turn contributes. *)
Lemma fold_push_turn (contents : list ContentUnion) (messages : list value) :
  fold_left push_turn contents messages
  = (messages ++ flat_map (push_turn []) contents)%list.
Proof.
  revert messages.
  induction contents as [|c contents IH]; intros messages; cbn [fold_left flat_map].
  - now rewrite app_nil_r.
  - now rewrite IH, push_turn_app, <- app_assoc.
Qed.

Lemma convertToOpenAIFormat_messages this request :
  get "messages" (convertToOpenAIFormat this request)
  = VArr (system_messages request
            ++ flat_map (push_turn []) (turns (Genai.contents request)))%list.
Proof.
  unfold convertToOpenAIFormat, system_messages. cbn [get assoc String.eqb Ascii.eqb Bool.eqb].
  f_equal.
  destruct request as [contents [config|]]; cbn [Genai.config Genai.contents].
  - destruct (Genai.systemInstruction config) as [|[|c s]|items|role text parts|text parts];
      destruct contents as [|[|c' s']|items'|role' text' parts'|text' parts'];
      cbn [content_truthy string_truthy turns app flat_map fold_left];
      rewrite ?fold_push_turn, ?app_nil_r; try reflexivity;
      now rewrite push_turn_app.
  - destruct contents as [|[|c' s']|items'|role' text' parts'|text' parts'];
      cbn [content_truthy string_truthy turns app flat_map fold_left];
      rewrite ?fold_push_turn, ?app_nil_r; reflexivity.
Qed.

(** C5, counterexample.  A bare empty-string turn inside a sequence is
    forwarded as a user message with empty content. *)
Lemma empty_string_turn_counterexample :
  get "messages" (convertToOpenAIFormat adapter (request_of (Arr [Str ""])))
  = VArr [VObj [("role", VStr "user"); ("content", VStr "")]].
Proof. reflexivity. Qed.

(** C5, amended.  The messages of the payload are the system message (if
    any) followed, in order, by what each turn contributes: a bare string
    turn always contributes [{role: user, content: string}], also when the
    string is empty; a structured turn with a role contributes one message,
    with role [model] mapped to [assistant] and other roles unchanged (a
    [role] property that holds [undefined] is forwarded as [undefined]),
    exactly when the text extracted from its parts is non-empty; any other
    turn contributes nothing.  So only a bare string turn can be forwarded
    with empty content. *)
Theorem convertToOpenAIFormat_turns :
  (forall this request,
     get "messages" (convertToOpenAIFormat this request)
     = VArr (system_messages request
               ++ flat_map (push_turn []) (turns (Genai.contents request)))%list)
  /\ (forall s,
        push_turn [] (Str s) = [VObj [("role", VStr "user"); ("content", VStr s)]])
  /\ (forall r text parts,
        push_turn [] (Obj (Some r) text (Some parts))
        = match extractText parts with
          | "" => []
          | t => [VObj [("role", VStr (if String.eqb r "model" then "assistant" else r));
                        ("content", VStr t)]]
          end)
  /\ (forall r text, push_turn [] (Obj (Some r) text None) = [])
  /\ (forall text parts, push_turn [] (Obj None text parts) = [])
  /\ (forall items, push_turn [] (Arr items) = [])
  /\ push_turn [] Absent = []
  /\ (forall text parts,
        push_turn [] (ObjUndefinedRole text (Some parts))
        = match extractText parts with
          | "" => []
          | t => [VObj [("role", VUndefined); ("content", VStr t)]]
          end)
  /\ (forall text, push_turn [] (ObjUndefinedRole text None) = []).
Proof.
  split; [exact convertToOpenAIFormat_messages|].
  split; [reflexivity|].
  split.
  { intros r text parts. cbn [push_turn].
    destruct (extractText parts); reflexivity. }
  do 4 (split; [reflexivity|]).
  split; [|reflexivity].
  intros text parts. cbn [push_turn].
  destruct (extractText parts); reflexivity.
Qed.

(** C4, counterexample.  An explicit 0 for [maxOutputTokens], [temperature]
    and [topP] is not forwarded: the payload carries the defaults. *)
Lemma zero_sampling_counterexample :
  get "max_tokens" (convertToOpenAIFormat adapter zero_sampling_request) = VNum (num 4096)
  /\ get "temperature" (convertToOpenAIFormat adapter zero_sampling_request)
     = VNum (Finite 7 (-1))
  /\ get "top_p" (convertToOpenAIFormat adapter zero_sampling_request) = VNum (num 1)
  /\ get "max_tokens" (convertToOpenAIFormat adapter zero_sampling_request) <> VNum (num 0).
Proof. repeat split; try reflexivity. discriminate. Qed.

Lemma number_truthy_zero_or_NaN (n : number) : number_truthy n = negb (zero_or_NaN n).
Proof. destruct n as [[| |] e| |]; reflexivity. Qed.

Lemma or_number_spec (o : option number) (d : number) :
  or_number o d
  = match o with
    | Some n => if zero_or_NaN n then d else n
    | None => d
    end.
Proof.
  destruct o as [n|]; [|reflexivity].
  unfold or_number. rewrite number_truthy_zero_or_NaN.
  now destruct (zero_or_NaN n).
Qed.

(** C4, amended.  [max_tokens], [temperature] and [top_p] are the configured
    value when it is present and neither zero nor NaN, and 4096, 0.7 and 1
    otherwise -- an explicit 0 is replaced by the default; [stream] is
    always false. *)
Theorem convertToOpenAIFormat_sampling this request :
  get "max_tokens" (convertToOpenAIFormat this request)
  = VNum match chain (Genai.config request) Genai.maxOutputTokens with
         | Some n => if zero_or_NaN n then Finite 4096 0 else n
         | None => Finite 4096 0
         end
  /\ get "temperature" (convertToOpenAIFormat this request)
     = VNum match chain (Genai.config request) Genai.temperature with
            | Some n => if zero_or_NaN n then Finite 7 (-1) else n
            | None => Finite 7 (-1)
            end
  /\ get "top_p" (convertToOpenAIFormat this request)
     = VNum match chain (Genai.config request) Genai.topP with
            | Some n => if zero_or_NaN n then Finite 1 0 else n
            | None => Finite 1 0
            end
  /\ get "stream" (convertToOpenAIFormat this request) = VBool false.
Proof.
  unfold convertToOpenAIFormat.
  cbn [get assoc String.eqb Ascii.eqb Bool.eqb].
  rewrite !or_number_spec. repeat split; reflexivity.
Qed.

(** C2.  The payload never carries tools: its properties are exactly
    [model], [messages], [max_tokens], [temperature], [top_p] and [stream],
    whatever [config.tools] holds.  On the request whose tools declare
    [foo], [convertToolsToOpenAIFormat] would produce the function spec the
    claim describes, but it is never called and the payload has no [tools]
    property. *)
Theorem convertToOpenAIFormat_drops_tools :
  (forall this request,
     keys (convertToOpenAIFormat this request)
     = ["model"; "messages"; "max_tokens"; "temperature"; "top_p"; "stream"])
  /\ has "tools" (convertToOpenAIFormat adapter tools_request) = false
  /\ get "tools" (convertToOpenAIFormat adapter tools_request) = VUndefined
  /\ convertToolsToOpenAIFormat [foo_tool]
     = [VObj [("type", VStr "function");
              ("function",
                VObj [("name", VStr "foo");
                      ("description", VStr "Execute foo");
                      ("parameters",
                        VObj [("type", VStr "object");
                              ("properties", VObj []);
                              ("required", VArr [])])])]].
Proof. repeat split; reflexivity. Qed.

(** ** convertFromOpenAIFormat *)

Lemma first_choice_spec (openaiResponse : OpenAI.Response) :
  chain (OpenAI.choices openaiResponse) (fun l => nth_error l 0)
  = first_choice openaiResponse.
Proof.
  unfold first_choice.
  destruct (OpenAI.choices openaiResponse) as [[|choice rest]|]; reflexivity.
Qed.

Lemma first_tool_call_spec (choice : OpenAI.Choice) :
  first_tool_call choice
  = match chain (OpenAI.message choice) OpenAI.tool_calls with
    | Some (functionCall :: _) => Some functionCall
    | _ => None
    end.
Proof.
  unfold first_tool_call.
  destruct (OpenAI.message choice) as [m|]; reflexivity.
Qed.

(** The three outcomes, by the first choice and its first tool call. *)
Lemma convertFromOpenAIFormat_no_choice (openaiResponse : OpenAI.Response) :
  first_choice openaiResponse = None ->
  convertFromOpenAIFormat openaiResponse = Throw (Error "No choices in OpenAI response").
Proof.
  intros H. unfold convertFromOpenAIFormat.
  now rewrite first_choice_spec, H.
Qed.

Lemma convertFromOpenAIFormat_plain openaiResponse choice :
  first_choice openaiResponse = Some choice ->
  first_tool_call choice = None ->
  exists response, convertFromOpenAIFormat openaiResponse = Ok response.
Proof.
  intros Hc Ht. unfold convertFromOpenAIFormat.
  rewrite first_choice_spec, Hc.
  rewrite first_tool_call_spec in Ht.
  destruct (chain (OpenAI.message choice) OpenAI.tool_calls) as [[|tc more]|];
    try discriminate; eexists; reflexivity.
Qed.

Lemma convertFromOpenAIFormat_call openaiResponse choice functionCall :
  first_choice openaiResponse = Some choice ->
  first_tool_call choice = Some functionCall ->
  convertFromOpenAIFormat openaiResponse
  = match JSON_parse
            (or_string (chain (OpenAI.function functionCall) OpenAI.arguments) "{}")
    with
    | Some args =>
        let text := or_string (chain (OpenAI.message choice) OpenAI.content) "" in
        let call :=
          VObj [("name", of_option (chain (OpenAI.function functionCall) OpenAI.name));
                ("args", args)] in
        Ok (VObj
              [("candidates",
                 VArr [VObj [("content",
                               VObj [("parts",
                                       VArr (if string_truthy text
                                             then [VObj [("text", VStr text)];
                                                   VObj [("functionCall", call)]]
                                             else [VObj [("functionCall", call)]]));
                                     ("role", VStr "model")]);
                             ("finishReason", VStr "STOP");
                             ("index", VNum (num 0))]]);
               ("usageMetadata", usageMetadata openaiResponse);
               ("text", VStr text);
               ("data", VUndefined);
               ("functionCalls", VArr [call]);
               ("executableCode", VUndefined);
               ("codeExecutionResult", VUndefined)])
    | None => Throw SyntaxError
    end.
Proof.
  intros Hc Ht. unfold convertFromOpenAIFormat.
  rewrite first_choice_spec, Hc.
  rewrite first_tool_call_spec in Ht.
  destruct (chain (OpenAI.message choice) OpenAI.tool_calls) as [[|tc more]|];
    try discriminate.
  injection Ht as ->.
  destruct (JSON_parse _); reflexivity.
Qed.

(** C1, counterexample.  When the first tool call's [arguments] is the empty
    string, [JSON.parse(arguments ?? "{}")] has no value (the empty string
    is not a JSON text), yet a function call is built, with the empty
    object for [args]. *)
Lemma empty_arguments_counterexample :
  JSON_parse (nullish_or (Some "") "{}") = None
  /\ exists response,
       convertFromOpenAIFormat (foo_response (Some "")) = Ok response
       /\ get "functionCalls" response
          = VArr [VObj [("name", VStr "foo"); ("args", VObj [])]].
Proof. split; [reflexivity|]. eexists. split; reflexivity. Qed.

(** C1, amended.  For every wire response whose first choice has a non-empty
    [tool_calls], if [JSON.parse(arguments || "{}")] of the first tool call
    yields [args] (absent or empty arguments are read as the empty object),
    the adapter returns a response built from that call only: one candidate
    whose parts are the text part (when the text is non-empty) followed by
    the function-call part [{name, args}], [functionCalls] holding exactly
    that call, and finish reason [STOP] whatever the wire finish reason. *)
Theorem convertFromOpenAIFormat_tool_call
    (openaiResponse : OpenAI.Response) (choice : OpenAI.Choice)
    (functionCall : OpenAI.ToolCall) (args : value) :
  first_choice openaiResponse = Some choice ->
  first_tool_call choice = Some functionCall ->
  JSON_parse
    (match chain (OpenAI.function functionCall) OpenAI.arguments with
     | None | Some "" => "{}"
     | Some s => s
     end) = Some args ->
  exists response candidate,
    convertFromOpenAIFormat openaiResponse = Ok response
    /\ get "candidates" response = VArr [candidate]
    /\ get "parts" (get "content" candidate)
       = VArr (match or_string (chain (OpenAI.message choice) OpenAI.content) "" with
               | "" => []
               | text => [VObj [("text", VStr text)]]
               end
               ++ [VObj [("functionCall",
                           VObj [("name",
                                   of_option (chain (OpenAI.function functionCall) OpenAI.name));
                                 ("args", args)])]])%list
    /\ get "functionCalls" response
       = VArr [VObj [("name", of_option (chain (OpenAI.function functionCall) OpenAI.name));
                     ("args", args)]]
    /\ get "finishReason" candidate = VStr "STOP".
Proof.
  intros Hc Ht Hp.
  rewrite (convertFromOpenAIFormat_call _ _ _ Hc Ht).
  replace (or_string (chain (OpenAI.function functionCall) OpenAI.arguments) "{}")
    with (match chain (OpenAI.function functionCall) OpenAI.arguments with
          | None | Some "" => "{}"
          | Some s => s
          end)
    by (destruct (chain (OpenAI.function functionCall) OpenAI.arguments) as [[|c s]|];
        reflexivity).
  rewrite Hp. cbv zeta.
  eexists. eexists. split; [reflexivity|].
  cbn [get assoc String.eqb Ascii.eqb Bool.eqb].
  split; [reflexivity|].
  split; [|split; reflexivity].
  destruct (or_string (chain (OpenAI.message choice) OpenAI.content) "");
    reflexivity.
Qed.

(** The specification's example: a call to [foo] with arguments [{"x":1}]. *)
Lemma convertFromOpenAIFormat_tool_call_witness :
  exists response candidate,
    convertFromOpenAIFormat (foo_response (Some (json_text "{'x':1}"))) = Ok response
    /\ get "candidates" response = VArr [candidate]
    /\ get "parts" (get "content" candidate)
       = VArr [VObj [("functionCall",
                       VObj [("name", VStr "foo");
                             ("args", VObj [("x", VNum (num 1))])])]]
    /\ get "functionCalls" response
       = VArr [VObj [("name", VStr "foo"); ("args", VObj [("x", VNum (num 1))])]]
    /\ get "finishReason" candidate = VStr "STOP".
Proof.
  exact (convertFromOpenAIFormat_tool_call
           (foo_response (Some (json_text "{'x':1}")))
           (foo_choice (Some (json_text "{'x':1}")))
           (foo_call (Some (json_text "{'x':1}")))
           (VObj [("x", VNum (num 1))])
           eq_refl eq_refl eq_refl).
Defined.

Lemma try_catch_rethrow {A} (r : result A) :
  try_catch r (fun error => Throw error) = r.
Proof. destruct r; reflexivity. Qed.

(** When the server answers with a wire response, [generateContent] returns
    what [convertFromOpenAIFormat] returns for it, an exception included. *)
Lemma generateContent_answering openaiResponse this request :
  generateContent (answering openaiResponse) this request
  = convertFromOpenAIFormat openaiResponse.
Proof.
  unfold generateContent, answering.
  cbn [bind negb Http.ok Http.json].
  apply try_catch_rethrow.
Qed.

(** [arguments || "{}"] fails to parse exactly when [arguments] is a
    non-empty string that is not a JSON text. *)
Lemma parse_arguments_fails (arguments : option string) :
  JSON_parse (or_string arguments "{}") = None
  <-> exists s, arguments = Some s /\ s <> "" /\ JSON_parse s = None.
Proof.
  destruct arguments as [[|c s]|]; cbn [or_string string_truthy].
  - split; [discriminate|]. intros (s & [= <-] & H & _). now destruct H.
  - split.
    + intros H. exists (String c s). repeat split; [discriminate | exact H].
    + intros (s' & [= <-] & _ & H). exact H.
  - split; [discriminate|]. intros (s & H & _). discriminate H.
Qed.

Lemma malformed_arguments_call openaiResponse choice functionCall :
  first_choice openaiResponse = Some choice ->
  first_tool_call choice = Some functionCall ->
  malformed_arguments openaiResponse
  <-> JSON_parse
        (or_string (chain (OpenAI.function functionCall) OpenAI.arguments) "{}") = None.
Proof.
  intros Hc Ht. rewrite parse_arguments_fails. unfold malformed_arguments. split.
  - intros (c' & f' & s & H1 & H2 & H3 & H4 & H5).
    rewrite Hc in H1. injection H1 as <-.
    rewrite Ht in H2. injection H2 as <-.
    now exists s.
  - intros (s & H3 & H4 & H5). now exists choice, functionCall, s.
Qed.

Lemma malformed_arguments_plain openaiResponse choice :
  first_choice openaiResponse = Some choice ->
  first_tool_call choice = None ->
  ~ malformed_arguments openaiResponse.
Proof.
  intros Hc Ht (c' & f' & s & H1 & H2 & _).
  rewrite Hc in H1. injection H1 as <-. congruence.
Qed.

(** Arguments with an escape above 255 are a JSON text: the call is
    returned. *)
Example convertFromOpenAIFormat_unicode_arguments :
  exists response,
    convertFromOpenAIFormat (foo_response (Some (json_text "{'k':'\u20ac'}")))
    = Ok response
    /\ get "functionCalls" response
       = VArr [VObj [("name", VStr "foo");
                     ("args",
                       VObj [("k", VStr (String "226" (String "130" (String "172" ""))))])]].
Proof. eexists. split; reflexivity. Qed.

(** C3, counterexample.  The first tool call's [arguments] is present and is
    not a JSON text (it is the empty string), and there is a first choice,
    yet the adapter does not fail. *)
Lemma empty_arguments_no_failure_counterexample :
  JSON_parse "" = None
  /\ first_choice (foo_response (Some "")) <> None
  /\ exists response, convertFromOpenAIFormat (foo_response (Some "")) = Ok response.
Proof.
  split; [reflexivity|]. split; [discriminate|].
  eexists. reflexivity.
Qed.

(** C3, amended.  The adapter fails exactly when the wire response has no
    first choice (it throws [Error "No choices in OpenAI response"]) or when
    the first tool call of the first choice carries a non-empty [arguments]
    string that is not a JSON text (the SyntaxError of [JSON.parse]); an
    empty [arguments] string is read as the empty object and does not fail.
    In every other case it returns a response.  [generateContent] hands the
    outcome, the exception included, to its caller unchanged. *)
Theorem convertFromOpenAIFormat_failure (openaiResponse : OpenAI.Response) :
  (forall e,
     convertFromOpenAIFormat openaiResponse = Throw e
     <-> (first_choice openaiResponse = None
          /\ e = Error "No choices in OpenAI response")
         \/ (malformed_arguments openaiResponse /\ e = SyntaxError))
  /\ ((exists response, convertFromOpenAIFormat openaiResponse = Ok response)
      <-> ~ (first_choice openaiResponse = None \/ malformed_arguments openaiResponse))
  /\ (forall this request,
        generateContent (answering openaiResponse) this request
        = convertFromOpenAIFormat openaiResponse).
Proof.
  split; [|split; [|intros; apply generateContent_answering]].
  - intros e.
    destruct (first_choice openaiResponse) as [choice|] eqn:Hc.
    + destruct (first_tool_call choice) as [functionCall|] eqn:Ht.
      * rewrite (malformed_arguments_call _ _ _ Hc Ht).
        rewrite (convertFromOpenAIFormat_call _ _ _ Hc Ht).
        destruct (JSON_parse _) as [args|]; cbv zeta; split.
        -- discriminate.
        -- intros [[H _]|[H _]]; discriminate.
        -- intros [= <-]. now right.
        -- intros [[H _]|[_ ->]]; [discriminate | reflexivity].
      * destruct (convertFromOpenAIFormat_plain _ _ Hc Ht) as [response ->].
        split; [discriminate|].
        intros [[H _]|[H _]]; [discriminate|].
        now destruct (malformed_arguments_plain _ _ Hc Ht).
    + rewrite (convertFromOpenAIFormat_no_choice _ Hc). split.
      * intros [= <-]. left. split; reflexivity.
      * intros [[_ ->]|[(c' & f' & s' & H1 & _) _]]; [reflexivity | congruence].
  - destruct (first_choice openaiResponse) as [choice|] eqn:Hc.
    + destruct (first_tool_call choice) as [functionCall|] eqn:Ht.
      * rewrite (malformed_arguments_call _ _ _ Hc Ht).
        rewrite (convertFromOpenAIFormat_call _ _ _ Hc Ht).
        destruct (JSON_parse _) as [args|]; cbv zeta; split.
        -- intros _ [H|H]; discriminate.
        -- intros _. eexists. reflexivity.
        -- intros [response H]. discriminate.
        -- intros H. exfalso. apply H. now right.
      * split.
        -- intros _ [H|H]; [discriminate|].
           now destruct (malformed_arguments_plain _ _ Hc Ht).
        -- intros _. exact (convertFromOpenAIFormat_plain _ _ Hc Ht).
    + rewrite (convertFromOpenAIFormat_no_choice _ Hc). split.
      * intros [response H]. discriminate.
      * intros H. exfalso. apply H. now left.
Qed.

(** C10.  Every response the adapter returns, on the plain-text branch and on
    the tool-call branch alike, has exactly one candidate, with index 0 and
    content role [model] whatever role the wire message carries, and each
    usage count is 0 when the corresponding wire usage field is absent. *)
Theorem convertFromOpenAIFormat_candidate
    (openaiResponse : OpenAI.Response) (response : value) :
  convertFromOpenAIFormat openaiResponse = Ok response ->
  exists candidate,
    get "candidates" response = VArr [candidate]
    /\ get "index" candidate = VNum (num 0)
    /\ get "role" (get "content" candidate) = VStr "model"
    /\ (chain (OpenAI.usage openaiResponse) OpenAI.prompt_tokens = None ->
        get "promptTokenCount" (get "usageMetadata" response) = VNum (num 0))
    /\ (chain (OpenAI.usage openaiResponse) OpenAI.completion_tokens = None ->
        get "candidatesTokenCount" (get "usageMetadata" response) = VNum (num 0))
    /\ (chain (OpenAI.usage openaiResponse) OpenAI.total_tokens = None ->
        get "totalTokenCount" (get "usageMetadata" response) = VNum (num 0)).
Proof.
  unfold convertFromOpenAIFormat. rewrite first_choice_spec.
  destruct (first_choice openaiResponse) as [choice|]; [|discriminate].
  destruct (chain (OpenAI.message choice) OpenAI.tool_calls) as [[|functionCall more]|].
  2: destruct (JSON_parse _) as [args|]; [|discriminate].
  all: cbn [bind]; intros [= <-]; eexists;
    cbn [get assoc String.eqb Ascii.eqb Bool.eqb];
    (split; [reflexivity|]); (split; [reflexivity|]); (split; [reflexivity|]);
    unfold usageMetadata; cbn [get assoc String.eqb Ascii.eqb Bool.eqb];
    repeat split; intros ->; reflexivity.
Qed.

(** The plain-text reply [hello], without usage. *)
Lemma convertFromOpenAIFormat_candidate_witness :
  convertFromOpenAIFormat (text_response "hello") = Ok hello_response
  /\ exists candidate,
       get "candidates" hello_response = VArr [candidate]
       /\ get "index" candidate = VNum (num 0)
       /\ get "role" (get "content" candidate) = VStr "model"
       /\ (chain (OpenAI.usage (text_response "hello")) OpenAI.prompt_tokens = None ->
           get "promptTokenCount" (get "usageMetadata" hello_response) = VNum (num 0))
       /\ (chain (OpenAI.usage (text_response "hello")) OpenAI.completion_tokens = None ->
           get "candidatesTokenCount" (get "usageMetadata" hello_response) = VNum (num 0))
       /\ (chain (OpenAI.usage (text_response "hello")) OpenAI.total_tokens = None ->
           get "totalTokenCount" (get "usageMetadata" hello_response) = VNum (num 0)).
Proof.
  split; [reflexivity|].
  apply (convertFromOpenAIFormat_candidate (text_response "hello")).
  reflexivity.
Defined.

(** ** generateContentStream *)

(** C9, counterexample.  When the server answers with no choices,
    [generateContent] throws and so does [generateContentStream]: there is
    no generator and no element is ever yielded. *)
Lemma generateContentStream_failure_counterexample :
  generateContentStream (answering no_choices_response) adapter (request_of (Str "hi"))
  = Throw (Error "No choices in OpenAI response")
  /\ ~ exists g,
         generateContentStream (answering no_choices_response) adapter
           (request_of (Str "hi"))
         = Ok g.
Proof.
  split; [reflexivity|].
  intros [g H]. discriminate H.
Qed.

Lemma collect_fresh (response : value) (fuel : nat) :
  collect (2 + fuel) {| captured := response; state := SuspendedStart |}
  = Some [response].
Proof. reflexivity. Qed.

(** C9, amended.  When [generateContent] returns a response for the request,
    [generateContentStream] returns a generator that yields exactly that one
    response and then completes (and stays completed); when
    [generateContent] fails, [generateContentStream] fails with the same
    exception and yields nothing. *)
Theorem generateContentStream_single
    (fetch : string -> Http.RequestInit -> result Http.Response)
    (this : LocalLLMContentGenerator) (request : Genai.GenerateContentParameters) :
  match generateContent fetch this request with
  | Ok response =>
      exists g,
        generateContentStream fetch this request = Ok g
        /\ (forall fuel, collect (2 + fuel) g = Some [response])
        /\ fst (next g) = {| value_of := response; done := false |}
        /\ done (fst (next (snd (next g)))) = true
        /\ done (fst (next (snd (next (snd (next g)))))) = true
  | Throw e => generateContentStream fetch this request = Throw e
  end.
Proof.
  unfold generateContentStream.
  destruct (generateContent fetch this request) as [response|e]; cbn [bind].
  - eexists. split; [reflexivity|].
    split; [apply collect_fresh|]. repeat split.
  - reflexivity.
Qed.

(** ** countTokens *)

(** [Math.ceil(length / 4)] is the least integer whose fourfold reaches the
    length. *)
Lemma estimate_ceiling (text : string) :
  (4 * (estimate text - 1) < Z.of_nat (String.length text) <= 4 * estimate text)%Z.
Proof.
  unfold estimate, Qceiling, Qfloor, Qopp. cbn [Qnum Qden].
  assert (H := Z.div_mod (- Z.of_nat (String.length text)) 4 ltac:(lia)).
  assert (H' := Z.mod_pos_bound (- Z.of_nat (String.length text)) 4 ltac:(lia)).
  lia.
Qed.

(** Only [undefined] has no serialisation, and [contents || ''] is never
    [undefined]. *)
Lemma JSON_stringify_defined (v : value) :
  v <> VUndefined -> exists text, JSON_stringify v = Some text.
Proof.
  destruct v as [| |[|]|[m e| |negative]|s|items|fields];
    try congruence; intros _; eexists; reflexivity.
Qed.

Lemma contents_or_empty_defined (contents : value) :
  (if truthy contents then contents else VStr "") <> VUndefined.
Proof.
  destruct (truthy contents) eqn:E; [|discriminate].
  intros ->. discriminate E.
Qed.

(** C6, counterexample.  The serialisation of the string [abcd] is the
    six-character text with its quotes, so the estimate is 2, not 1. *)
Lemma countTokens_abcd_counterexample :
  countTokens {| CountTokensParameters.contents := VStr "abcd" |}
  = Ok (VObj [("totalTokens", VNum (num 2))])
  /\ countTokens {| CountTokensParameters.contents := VStr "abcd" |}
     <> Ok (VObj [("totalTokens", VNum (num 1))]).
Proof. split; [reflexivity | discriminate]. Qed.

(** C6, amended.  For every request, [countTokens] returns [totalTokens]
    equal to the ceiling of a quarter of the length of
    [JSON.stringify(contents || '')], which for a string includes its two
    quotes and its escapes: [countTokens({contents: "abcd"})] is 2 and
    [countTokens({contents: "abcdefgh"})] is 3. *)
Theorem countTokens_estimate :
  (forall request, exists text n,
      JSON_stringify
        (if truthy (CountTokensParameters.contents request)
         then CountTokensParameters.contents request else VStr "") = Some text
      /\ countTokens request = Ok (VObj [("totalTokens", VNum (Finite n 0))])
      /\ (4 * (n - 1) < Z.of_nat (String.length text) <= 4 * n)%Z)
  /\ countTokens {| CountTokensParameters.contents := VStr "abcd" |}
     = Ok (VObj [("totalTokens", VNum (Finite 2 0))])
  /\ countTokens {| CountTokensParameters.contents := VStr "abcdefgh" |}
     = Ok (VObj [("totalTokens", VNum (Finite 3 0))]).
Proof.
  split; [|split; reflexivity].
  intros request. unfold countTokens.
  destruct (JSON_stringify_defined _
              (contents_or_empty_defined (CountTokensParameters.contents request)))
    as [text Htext].
  exists text, (estimate text). rewrite Htext.
  split; [reflexivity|]. split; [reflexivity|].
  apply estimate_ceiling.
Qed.

(** * Further properties *)

(** ** convertToolsToOpenAIFormat *)

Lemma fold_push_declaration (l : list Genai.FunctionDeclaration) (openaiTools : list value) :
  fold_left push_declaration l openaiTools
  = (openaiTools ++ flat_map function_spec l)%list.
Proof.
  revert openaiTools.
  induction l as [|func l IH]; intros openaiTools; cbn [fold_left flat_map].
  - now rewrite app_nil_r.
  - rewrite IH. unfold function_spec at 2, push_declaration.
    now rewrite <- app_assoc.
Qed.

Lemma fold_tools (tools : list Genai.Tool) (openaiTools : list value) :
  fold_left
    (fun openaiTools tool =>
       match Genai.functionDeclarations tool with
       | Some l => fold_left push_declaration l openaiTools
       | None => openaiTools
       end)
    tools openaiTools
  = (openaiTools
     ++ flat_map (fun tool => flat_map function_spec (declarations tool)) tools)%list.
Proof.
  revert openaiTools.
  induction tools as [|tool tools IH]; intros openaiTools; cbn [fold_left flat_map].
  - now rewrite app_nil_r.
  - rewrite IH. unfold declarations at 2.
    destruct (Genai.functionDeclarations tool) as [l|]; cbn [flat_map].
    + now rewrite fold_push_declaration, <- app_assoc.
    + reflexivity.
Qed.

Lemma convertToolsToOpenAIFormat_flat_map (tools : list Genai.Tool) :
  convertToolsToOpenAIFormat tools
  = flat_map (fun tool => flat_map function_spec (declarations tool)) tools.
Proof. unfold convertToolsToOpenAIFormat. now rewrite fold_tools. Qed.

Lemma length_function_specs (l : list Genai.FunctionDeclaration) :
  length (flat_map function_spec l) = length l.
Proof.
  induction l as [|func l IH]; [reflexivity|].
  cbn [flat_map]. rewrite length_app, IH. reflexivity.
Qed.

(** X1.  [convertToolsToOpenAIFormat] produces one function spec per
    declaration, tool by tool and declaration by declaration in their order;
    a tool without declarations contributes nothing, and converting two
    lists of tools one after the other is converting their concatenation. *)
Theorem convertToolsToOpenAIFormat_flat :
  (forall tools,
     convertToolsToOpenAIFormat tools
     = flat_map (fun tool => flat_map function_spec (declarations tool)) tools)
  /\ (forall tools,
        length (convertToolsToOpenAIFormat tools)
        = list_sum (map (fun tool => length (declarations tool)) tools))
  /\ (forall tools1 tools2,
        convertToolsToOpenAIFormat (tools1 ++ tools2)
        = (convertToolsToOpenAIFormat tools1 ++ convertToolsToOpenAIFormat tools2)%list).
Proof.
  split; [exact convertToolsToOpenAIFormat_flat_map|]. split.
  - intros tools. rewrite convertToolsToOpenAIFormat_flat_map.
    induction tools as [|tool tools IH]; [reflexivity|].
    cbn [flat_map map list_sum].
    now rewrite length_app, length_function_specs, IH.
  - intros tools1 tools2.
    now rewrite !convertToolsToOpenAIFormat_flat_map, flat_map_app.
Qed.

Lemma or_string_nonempty (o : option string) (d : string) :
  d <> "" -> or_string o d <> "".
Proof.
  intros Hd. destruct o as [[|c s]|]; cbn [or_string string_truthy];
    [exact Hd | discriminate | exact Hd].
Qed.

Lemma or_value_truthy (o : option value) (d : value) :
  truthy d = true -> truthy (or_value o d) = true.
Proof.
  intros Hd. destruct o as [v|]; cbn [or_value]; [|exact Hd].
  destruct (truthy v) eqn:E; [exact E | exact Hd].
Qed.

Lemma function_spec_well_formed (func : Genai.FunctionDeclaration) :
  Forall well_formed_spec (function_spec func).
Proof.
  unfold function_spec, push_declaration. cbn [app].
  constructor; [|constructor].
  unfold well_formed_spec. cbn [keys map fst get assoc String.eqb Ascii.eqb Bool.eqb].
  repeat split.
  - eexists. split; [reflexivity|]. now apply or_string_nonempty.
  - now apply or_value_truthy.
  - now apply or_value_truthy.
Qed.

(** X2.  Every function spec [convertToolsToOpenAIFormat] returns has type
    [function], a function object with exactly [name], [description] and
    [parameters], a description that is never empty, and a parameters object
    with exactly [type] (always [object]), [properties] and [required], the
    last two never missing: nothing else of the source schema is copied. *)
Theorem convertToolsToOpenAIFormat_well_formed (tools : list Genai.Tool) :
  Forall well_formed_spec (convertToolsToOpenAIFormat tools).
Proof.
  rewrite convertToolsToOpenAIFormat_flat_map.
  induction tools as [|tool tools IH]; cbn [flat_map]; [constructor|].
  apply Forall_app. split; [|exact IH].
  induction (declarations tool) as [|func l IHl]; cbn [flat_map]; [constructor|].
  apply Forall_app. split; [apply function_spec_well_formed | exact IHl].
Qed.

(** ** convertToOpenAIFormat, further *)

Lemma push_turn_well_formed (turn : ContentUnion) :
  Forall well_formed_message (push_turn [] turn) /\ length (push_turn [] turn) <= 1.
Proof.
  destruct turn as [|s|items|[r|] text parts|text parts];
    cbn [push_turn app length];
    try solve [split; [constructor | lia]].
  - split; [|lia]. constructor; [|constructor].
    exists (VStr "user"), s. split; [reflexivity|].
    split; [right; exists "user"; split; [reflexivity | discriminate] | now left].
  - destruct (extractText _) as [|c t] eqn:E; cbn [string_truthy app length];
      (split; [|lia]); constructor; [|constructor].
    eexists. eexists. split; [reflexivity|]. split; [|discriminate].
    right. eexists. split; [reflexivity|].
    destruct (String.eqb_spec r "model") as [->|Hr]; [discriminate | exact Hr].
  - destruct (extractText _) as [|c t] eqn:E; cbn [string_truthy app length];
      (split; [|lia]); constructor; [|constructor].
    eexists. eexists. split; [reflexivity|]. split; [now left | discriminate].
Qed.

Lemma push_turn_undefined_role (turn : ContentUnion) :
  Exists undefined_role (push_turn [] turn) <-> undefined_role_turn turn.
Proof.
  unfold undefined_role_turn.
  destruct turn as [|s|items|[r|] text parts|text [parts|]];
    cbn [push_turn app].
  1,3,5,7: split; [intros H; inversion H | intros (t & p & H & _); discriminate H].
  - split; [|intros (t & p & H & _); discriminate H].
    intros H. inversion H as [m l Hm|m l Hl]; subst; [|inversion Hl].
    unfold undefined_role, chat_message in Hm. cbn in Hm. discriminate Hm.
  - split; [|intros (t & p & H & _); discriminate H].
    destruct (string_truthy _); cbn [app]; intros H; [|inversion H].
    inversion H as [m l Hm|m l Hl]; subst; [|inversion Hl].
    unfold undefined_role, chat_message in Hm. cbn in Hm.
    destruct (String.eqb r "model"); discriminate Hm.
  - destruct (extractText parts) as [|c t] eqn:E; cbn [string_truthy app].
    + split; [intros H; inversion H|].
      intros (t & p & H & Hp). injection H as _ <-. now rewrite E in Hp.
    + split; [|intros _; constructor; reflexivity].
      intros _. exists text, parts. split; [reflexivity|]. rewrite E. discriminate.
Qed.

Lemma system_messages_well_formed (request : Genai.GenerateContentParameters) :
  Forall well_formed_message (system_messages request)
  /\ length (system_messages request) <= 1.
Proof.
  unfold system_messages.
  destruct (Genai.config request) as [c|]; [|split; [constructor | cbn; lia]].
  destruct (Genai.systemInstruction c) as [|[|ch s]|items|role text parts|text parts];
    cbn [length]; (split; [|lia]); try constructor; try constructor;
    eexists; eexists; (split; [reflexivity|]);
    (split; [right; exists "system"; split; [reflexivity | discriminate] | now right]).
Qed.

Lemma system_messages_role (request : Genai.GenerateContentParameters) :
  ~ Exists undefined_role (system_messages request).
Proof.
  unfold system_messages.
  destruct (Genai.config request) as [c|]; [|intros H; inversion H].
  destruct (Genai.systemInstruction c) as [|[|ch s]|items|role text parts|text parts];
    intros H; inversion H as [m l Hm|m l Hl]; subst;
    solve [discriminate Hm | inversion Hl].
Qed.

(** A turn whose [role] property holds [undefined] is forwarded with that
    role when its parts carry text. *)
Example undefined_role_forwarded :
  get "messages"
    (convertToOpenAIFormat adapter
       (request_of (Arr [ObjUndefinedRole None (Some (Arr [Str "x"]))])))
  = VArr [VObj [("role", VUndefined); ("content", VStr "x")]].
Proof. reflexivity. Qed.

(** X3.  Every message of a payload is an object with exactly a [role] and
    a string [content].  The role is a string other than [model], or
    [undefined]; some message has the role [undefined] exactly when some
    turn has a [role] property that holds [undefined] and parts that carry
    text.  A message with empty content has role [user] or [system]; and
    there is at most one message per turn besides the system message. *)
Theorem convertToOpenAIFormat_messages_well_formed this request :
  exists messages,
    get "messages" (convertToOpenAIFormat this request) = VArr messages
    /\ Forall well_formed_message messages
    /\ length messages <= 1 + length (turns (Genai.contents request))
    /\ (Exists undefined_role messages
        <-> Exists undefined_role_turn (turns (Genai.contents request))).
Proof.
  rewrite convertToOpenAIFormat_messages. eexists. split; [reflexivity|].
  destruct (system_messages_well_formed request) as [Hs Hn].
  split; [|split].
  3: { rewrite Exists_app.
       split.
       - intros [H|H]; [now apply system_messages_role in H|].
         induction (turns (Genai.contents request)) as [|turn l IH];
           cbn [flat_map] in H; [inversion H|].
         apply Exists_app in H. destruct H as [H|H].
         + apply Exists_cons_hd. now apply push_turn_undefined_role.
         + apply Exists_cons_tl. now apply IH.
       - intros H. right.
         induction H as [turn l H|turn l H IH]; cbn [flat_map]; apply Exists_app.
         + left. now apply push_turn_undefined_role.
         + now right. }
  - apply Forall_app. split; [exact Hs|].
    induction (turns (Genai.contents request)) as [|turn l IH]; cbn [flat_map];
      [constructor|].
    apply Forall_app. split; [apply push_turn_well_formed | exact IH].
  - rewrite length_app.
    enough (length (flat_map (push_turn []) (turns (Genai.contents request)))
            <= length (turns (Genai.contents request))) by lia.
    induction (turns (Genai.contents request)) as [|turn l IH]; cbn [flat_map length];
      [lia|].
    rewrite length_app.
    destruct (push_turn_well_formed turn) as [_ H]. lia.
Qed.

Lemma or_number_truthy (o : option number) (d : number) :
  number_truthy d = true -> number_truthy (or_number o d) = true.
Proof.
  intros Hd. destruct o as [n|]; cbn [or_number]; [|exact Hd].
  destruct (number_truthy n) eqn:E; [exact E | exact Hd].
Qed.

(** X4.  The payload never carries a zero or NaN sampling parameter:
    [max_tokens], [temperature] and [top_p] are always numbers that are
    neither 0 nor NaN. *)
Theorem convertToOpenAIFormat_sampling_truthy this request :
  exists max_tokens temperature top_p,
    get "max_tokens" (convertToOpenAIFormat this request) = VNum max_tokens
    /\ get "temperature" (convertToOpenAIFormat this request) = VNum temperature
    /\ get "top_p" (convertToOpenAIFormat this request) = VNum top_p
    /\ zero_or_NaN max_tokens = false
    /\ zero_or_NaN temperature = false
    /\ zero_or_NaN top_p = false.
Proof.
  unfold convertToOpenAIFormat. cbn [get assoc String.eqb Ascii.eqb Bool.eqb].
  do 3 eexists. do 3 (split; [reflexivity|]).
  repeat split;
    match goal with
    | |- zero_or_NaN ?n = false =>
        assert (H : number_truthy n = true) by (now apply or_number_truthy);
        rewrite number_truthy_zero_or_NaN in H;
        now destruct (zero_or_NaN n)
    end.
Qed.

(** X5.  Extending a conversation extends the messages: the messages for
    the turns [l1 ++ l2] are the messages for [l1] (system message
    included) followed by the messages the turns [l2] give on their own. *)
Theorem convertToOpenAIFormat_append this config (l1 l2 : list ContentUnion) :
  exists messages1 messages2,
    get "messages"
      (convertToOpenAIFormat this {| Genai.contents := Arr l1; Genai.config := config |})
    = VArr messages1
    /\ get "messages"
         (convertToOpenAIFormat this {| Genai.contents := Arr l2; Genai.config := None |})
       = VArr messages2
    /\ get "messages"
         (convertToOpenAIFormat this
            {| Genai.contents := Arr (l1 ++ l2); Genai.config := config |})
       = VArr (messages1 ++ messages2).
Proof.
  rewrite !convertToOpenAIFormat_messages. do 2 eexists.
  split; [reflexivity|]. split; [reflexivity|].
  cbn [Genai.contents turns]. rewrite flat_map_app, app_assoc.
  reflexivity.
Qed.

(** ** extractText, further *)

Lemma append_empty (a b : string) : a ++ b = "" <-> a = "" /\ b = "".
Proof.
  destruct a as [|c a]; cbn [append]; split.
  - now intros ->.
  - now intros [_ ->].
  - discriminate.
  - now intros [H _].
Qed.

Lemma extractText_Arr_empty (items : list ContentUnion) :
  extractText (Arr items) = "" <-> Forall (fun part => extractText part = "") items.
Proof.
  rewrite extractText_Arr.
  induction items as [|part items IH]; cbn [map fold_right].
  - split; [constructor | reflexivity].
  - rewrite append_empty, IH. split.
    + intros [H1 H2]. now constructor.
    + intros H. inversion H. now split.
Qed.

(** X6.  The text of a sequence is empty exactly when the text of each of
    its elements is empty; so a structured turn whose parts are a sequence
    is left out of the messages exactly when none of its parts has text. *)
Theorem extractText_empty_iff (items : list ContentUnion) :
  (extractText (Arr items) = "" <-> Forall (fun part => extractText part = "") items)
  /\ (forall r text,
        push_turn [] (Obj (Some r) text (Some (Arr items))) = []
        <-> Forall (fun part => extractText part = "") items).
Proof.
  split; [apply extractText_Arr_empty|].
  intros r text. rewrite <- extractText_Arr_empty. cbn [push_turn].
  destruct (extractText (Arr items)); cbn [string_truthy app]; split;
    try reflexivity; discriminate.
Qed.

(** X7.  Nesting does not matter to [extractText]: a sequence of sequences
    has the text of the flattened sequence, and a content object whose
    parts are text parts, like a sequence of text parts or of strings, has
    the concatenation of the texts. *)
Theorem extractText_flatten :
  (forall ls : list (list ContentUnion),
     extractText (Arr (map Arr ls)) = extractText (Arr (concat ls)))
  /\ (forall ts, extractText (Arr (map Str ts)) = String.concat "" ts)
  /\ (forall ts, extractText (Arr (map text_part ts)) = String.concat "" ts)
  /\ (forall role ts,
        extractText (Obj role None (Some (Arr (map text_part ts)))) = String.concat "" ts).
Proof.
  assert (Hc : forall ts, fold_right append "" ts = String.concat "" ts).
  { induction ts as [|t [|t' ts] IH]; [reflexivity | apply append_empty_r |].
    cbn [fold_right] in *. now rewrite IH. }
  assert (Hp : forall ts, extractText (Arr (map text_part ts)) = String.concat "" ts).
  { intros ts. rewrite extractText_Arr, map_map, <- Hc. f_equal.
    rewrite <- (map_id ts) at 2. apply map_ext. now intros [|c t]. }
  split; [|split; [|split; [exact Hp|]]].
  - induction ls as [|l ls IH]; [reflexivity|].
    change (map Arr (l :: ls)) with ([Arr l] ++ map Arr ls)%list.
    cbn [concat]. rewrite !extractText_app, IH. f_equal.
    rewrite extractText_Arr. cbn [map fold_right]. apply append_empty_r.
  - intros ts. rewrite extractText_Arr, map_map, <- Hc. f_equal. apply map_id.
  - intros role ts. rewrite <- Hp. cbn [extractText content_truthy]. reflexivity.
Qed.

(** ** convertFromOpenAIFormat, further *)

(** X8.  Only the first choice and its first tool call are read: dropping
    every other choice and every other tool call from a wire response does
    not change what the adapter returns for it. *)
Theorem convertFromOpenAIFormat_first_only (openaiResponse : OpenAI.Response) :
  convertFromOpenAIFormat (first_only openaiResponse)
  = convertFromOpenAIFormat openaiResponse.
Proof.
  destruct openaiResponse as [[[|[[[role content [[|functionCall more]|]]|] reason] rest]|] usage];
    reflexivity.
Qed.

Lemma upper_idempotent (c : ascii) : upper (upper c) = upper c.
Proof. destruct c as [[|] [|] [|] [|] [|] [|] [|] [|]]; reflexivity. Qed.

Lemma toUpperCase_idempotent (s : string) : toUpperCase (toUpperCase s) = toUpperCase s.
Proof.
  induction s as [|c s IH]; [reflexivity|].
  cbn [toUpperCase]. now rewrite upper_idempotent, IH.
Qed.

Lemma toUpperCase_nonempty (s : string) : s <> "" -> toUpperCase s <> "".
Proof. destruct s; [congruence | discriminate]. Qed.

(** X9.  Whatever the wire finish reason, the finish reason of a returned
    response is a non-empty string that upper-casing leaves unchanged; when
    the first choice has no tool call (none, or an empty list), it is the
    upper-cased wire finish reason, and [STOP] when that one is absent or
    empty. *)
Theorem convertFromOpenAIFormat_finishReason
    (openaiResponse : OpenAI.Response) (response : value) :
  convertFromOpenAIFormat openaiResponse = Ok response ->
  exists choice candidate reason,
    first_choice openaiResponse = Some choice
    /\ get "candidates" response = VArr [candidate]
    /\ get "finishReason" candidate = VStr reason
    /\ reason <> ""
    /\ toUpperCase reason = reason
    /\ (first_tool_call choice = None ->
        reason = match OpenAI.finish_reason choice with
                 | None | Some "" => "STOP"
                 | Some wire => toUpperCase wire
                 end).
Proof.
  unfold convertFromOpenAIFormat. rewrite first_choice_spec.
  destruct (first_choice openaiResponse) as [choice|]; [|discriminate].
  pose proof (first_tool_call_spec choice) as Ht.
  destruct (chain (OpenAI.message choice) OpenAI.tool_calls) as [[|functionCall more]|].
  2: destruct (JSON_parse _) as [args|]; [|discriminate].
  all: cbn [bind]; intros [= <-]; exists choice; do 2 eexists;
    (split; [reflexivity|]);
    cbn [get assoc String.eqb Ascii.eqb Bool.eqb];
    (split; [reflexivity|]); (split; [reflexivity|]).
  2: { repeat split; try discriminate. intros H. rewrite Ht in H. discriminate H. }
  all: split;
    [apply toUpperCase_nonempty, or_string_nonempty; discriminate|];
    (split; [apply toUpperCase_idempotent|]);
    intros _; destruct (OpenAI.finish_reason choice) as [[|c s]|]; reflexivity.
Qed.

(** A reply whose finish reason is [length]. *)
Lemma convertFromOpenAIFormat_finishReason_witness :
  convertFromOpenAIFormat cut_response = Ok cut_reply
  /\ exists choice candidate reason,
       first_choice cut_response = Some choice
       /\ get "candidates" cut_reply = VArr [candidate]
       /\ get "finishReason" candidate = VStr reason
       /\ reason <> ""
       /\ toUpperCase reason = reason
       /\ (first_tool_call choice = None ->
           reason = match OpenAI.finish_reason choice with
                    | None | Some "" => "STOP"
                    | Some wire => toUpperCase wire
                    end).
Proof.
  split; [reflexivity|].
  apply (convertFromOpenAIFormat_finishReason cut_response).
  reflexivity.
Defined.

(** X10.  A returned response can be sent back as the model's turn of the
    next request: the text extracted from its candidate's content is its
    [text] property, the turn becomes an [assistant] message with that text,
    and it is left out altogether when the text is empty, as for a reply
    that is only a function call. *)
Theorem convertFromOpenAIFormat_next_turn
    (openaiResponse : OpenAI.Response) (response : value) :
  convertFromOpenAIFormat openaiResponse = Ok response ->
  exists candidate text,
    get "candidates" response = VArr [candidate]
    /\ get "text" response = VStr text
    /\ extractText (as_content (get "content" candidate)) = text
    /\ push_turn [] (as_content (get "content" candidate))
       = match text with
         | "" => []
         | _ => [VObj [("role", VStr "assistant"); ("content", VStr text)]]
         end.
Proof.
  unfold convertFromOpenAIFormat. rewrite first_choice_spec.
  destruct (first_choice openaiResponse) as [choice|]; [|discriminate].
  destruct (chain (OpenAI.message choice) OpenAI.tool_calls) as [[|functionCall more]|].
  2: destruct (JSON_parse _) as [args|]; [|discriminate].
  all: cbn [bind]; intros [= <-]; do 2 eexists;
    cbn [get assoc String.eqb Ascii.eqb Bool.eqb];
    (split; [reflexivity|]); (split; [reflexivity|]);
    destruct (or_string (chain (OpenAI.message choice) OpenAI.content) "");
    split; reflexivity.
Qed.

Lemma convertFromOpenAIFormat_next_turn_witness :
  convertFromOpenAIFormat (text_response "hello") = Ok hello_response
  /\ exists candidate text,
       get "candidates" hello_response = VArr [candidate]
       /\ get "text" hello_response = VStr text
       /\ extractText (as_content (get "content" candidate)) = text
       /\ push_turn [] (as_content (get "content" candidate))
          = match text with
            | "" => []
            | _ => [VObj [("role", VStr "assistant"); ("content", VStr text)]]
            end.
Proof.
  split; [reflexivity|].
  apply (convertFromOpenAIFormat_next_turn (text_response "hello")).
  reflexivity.
Defined.

(** X11.  The earlier decoder fails only when there is no first choice, and
    the current decoder differs from it only on responses whose first
    choice carries a tool call; even there, whenever the current decoder
    returns, the earlier one returns a response with the same properties,
    the same [text] and the same [usageMetadata]. *)
Theorem convertFromOpenAIFormat_legacy (openaiResponse : OpenAI.Response) :
  (forall e,
     Legacy.convertFromOpenAIFormat openaiResponse = Throw e
     <-> first_choice openaiResponse = None /\ e = Error "No choices in OpenAI response")
  /\ (convertFromOpenAIFormat openaiResponse = Legacy.convertFromOpenAIFormat openaiResponse
      \/ exists choice functionCall,
           first_choice openaiResponse = Some choice
           /\ first_tool_call choice = Some functionCall)
  /\ match convertFromOpenAIFormat openaiResponse with
     | Ok response =>
         exists legacy,
           Legacy.convertFromOpenAIFormat openaiResponse = Ok legacy
           /\ keys legacy = keys response
           /\ get "text" legacy = get "text" response
           /\ get "usageMetadata" legacy = get "usageMetadata" response
     | Throw _ => True
     end.
Proof.
  unfold convertFromOpenAIFormat, Legacy.convertFromOpenAIFormat.
  rewrite first_choice_spec.
  destruct (first_choice openaiResponse) as [choice|].
  - pose proof (first_tool_call_spec choice) as Ht.
    split; [|split].
    + intros e. split; [discriminate | intros [H _]; discriminate H].
    + destruct (chain (OpenAI.message choice) OpenAI.tool_calls)
        as [[|functionCall more]|]; [now left | | now left].
      right. now exists choice, functionCall.
    + destruct (chain (OpenAI.message choice) OpenAI.tool_calls)
        as [[|functionCall more]|].
      2: destruct (JSON_parse _) as [args|]; [|exact I].
      all: cbn [bind]; eexists; split; [reflexivity|]; repeat split.
  - split; [|split; [now left | exact I]].
    intros e. split; [intros [= <-]; now split | now intros [_ ->]].
Qed.

(** ** generateContent and generateContentStream, further *)

Lemma generateContent_headers (this : LocalLLMContentGenerator) :
  match apiKey this with
  | Some key =>
      if string_truthy key
      then app [("Content-Type", "application/json")] [("Authorization", "Bearer " ++ key)]
      else [("Content-Type", "application/json")]
  | None => [("Content-Type", "application/json")]
  end = request_headers this.
Proof.
  unfold request_headers. destruct (apiKey this) as [[|c key]|]; reflexivity.
Qed.

(** What [generateContent] does with the answer to its one call. *)
Lemma generateContent_outcome
    (fetch : string -> Http.RequestInit -> result Http.Response) this request :
  generateContent fetch this request
  = match fetch (request_url this) (request_init this request) with
    | Ok reply =>
        if Http.ok reply then
          match Http.json reply with
          | Ok data => convertFromOpenAIFormat data
          | Throw e => Throw e
          end
        else
          match Http.text reply with
          | Ok message =>
              Throw (Error ("HTTP error! status: " ++ Number_toString (Http.status reply)
                            ++ ", message: " ++ message))
          | Throw e => Throw e
          end
    | Throw e => Throw e
    end.
Proof.
  unfold generateContent. rewrite try_catch_rethrow.
  cbv zeta. rewrite generateContent_headers.
  change (endpoint this ++ "/chat/completions") with (request_url this).
  change {| Http.method := "POST";
            Http.headers := request_headers this;
            Http.body := JSON_stringify (convertToOpenAIFormat this request) |}
    with (request_init this request).
  destruct (fetch (request_url this) (request_init this request)) as [reply|e];
    cbn [bind]; [|reflexivity].
  destruct (Http.ok reply); cbn [negb].
  - destruct (Http.json reply); reflexivity.
  - destruct (Http.text reply); reflexivity.
Qed.

(** X12.  [generateContent] and [generateContentStream] consult the
    transport at one point only: a POST to [endpoint + "/chat/completions"]
    with a content type of JSON, a body that is always defined, and an
    [Authorization: Bearer key] header exactly when a non-empty [apiKey] is
    configured.  Two transports that answer that call alike give the same
    outcome. *)
Theorem generateContent_single_call
    (fetch1 fetch2 : string -> Http.RequestInit -> result Http.Response)
    this request :
  fetch1 (request_url this) (request_init this request)
  = fetch2 (request_url this) (request_init this request) ->
  generateContent fetch1 this request = generateContent fetch2 this request
  /\ generateContentStream fetch1 this request = generateContentStream fetch2 this request
  /\ request_url this = endpoint this ++ "/chat/completions"
  /\ Http.method (request_init this request) = "POST"
  /\ (exists body, Http.body (request_init this request) = Some body)
  /\ In ("Content-Type", "application/json") (Http.headers (request_init this request))
  /\ (forall k v,
        In (k, v) (Http.headers (request_init this request)) ->
        k = "Content-Type" \/ k = "Authorization")
  /\ (forall v,
        In ("Authorization", v) (Http.headers (request_init this request))
        <-> exists key, apiKey this = Some key /\ key <> "" /\ v = "Bearer " ++ key).
Proof.
  intros H.
  assert (G : generateContent fetch1 this request = generateContent fetch2 this request)
    by (now rewrite !generateContent_outcome, H).
  split; [exact G|]. split; [unfold generateContentStream; now rewrite G|].
  split; [reflexivity|]. split; [reflexivity|].
  split; [eexists; reflexivity|].
  cbn [request_init Http.headers]. unfold request_headers.
  split; [now left|]. split.
  - intros k v. destruct (apiKey this) as [[|c key]|]; cbn [In];
      intros [[= <- _]|H']; auto; try contradiction.
    destruct H' as [[= <- _]|[]]. now right.
  - intros v. destruct (apiKey this) as [[|c key]|]; cbn [In]; split.
    + intros [[=]|[]].
    + intros (key & [= <-] & Hk & _). now destruct Hk.
    + intros [[=]|[[= <-]|[]]]. exists (String c key).
      repeat split. discriminate.
    + intros (k & [= <-] & _ & ->). right. now left.
    + intros [[=]|[]].
    + intros (key & [=] & _).
Qed.

(** A client with a key, and two transports that agree where it calls. *)
Lemma generateContent_single_call_witness :
  answering (text_response "hello")
    (request_url keyed_adapter) (request_init keyed_adapter (request_of (Str "hi")))
  = only_at "http://localhost:1234/v1/chat/completions"
      (request_url keyed_adapter) (request_init keyed_adapter (request_of (Str "hi")))
  /\ generateContent (answering (text_response "hello")) keyed_adapter (request_of (Str "hi"))
     = generateContent (only_at "http://localhost:1234/v1/chat/completions")
         keyed_adapter (request_of (Str "hi"))
  /\ In ("Authorization", "Bearer secret")
       (Http.headers (request_init keyed_adapter (request_of (Str "hi")))).
Proof.
  split; [reflexivity|].
  destruct (generateContent_single_call
              (answering (text_response "hello"))
              (only_at "http://localhost:1234/v1/chat/completions")
              keyed_adapter (request_of (Str "hi")) eq_refl)
    as (H1 & _ & _ & _ & _ & _ & _ & H2).
  split; [exact H1|].
  apply H2. exists "secret". repeat split. discriminate.
Defined.

(** X13.  [generateContent] returns a response only when the transport
    answered its call with an [ok] reply whose body decoded to a wire
    response that [convertFromOpenAIFormat] turns into that response. *)
Theorem generateContent_success
    (fetch : string -> Http.RequestInit -> result Http.Response)
    this request (response : value) :
  generateContent fetch this request = Ok response ->
  exists reply data,
    fetch (request_url this) (request_init this request) = Ok reply
    /\ Http.ok reply = true
    /\ Http.json reply = Ok data
    /\ convertFromOpenAIFormat data = Ok response.
Proof.
  rewrite generateContent_outcome.
  destruct (fetch (request_url this) (request_init this request)) as [reply|e];
    [|discriminate].
  destruct (Http.ok reply) eqn:Hok.
  - destruct (Http.json reply) as [data|e] eqn:Hjson; [|discriminate].
    intros H. now exists reply, data.
  - destruct (Http.text reply); discriminate.
Qed.

Lemma generateContent_success_witness :
  generateContent (answering (text_response "hello")) adapter (request_of (Str "hi"))
  = Ok hello_response
  /\ exists reply data,
       answering (text_response "hello")
         (request_url adapter) (request_init adapter (request_of (Str "hi"))) = Ok reply
       /\ Http.ok reply = true
       /\ Http.json reply = Ok data
       /\ convertFromOpenAIFormat data = Ok hello_response.
Proof.
  split; [reflexivity|].
  apply (generateContent_success (answering (text_response "hello"))).
  reflexivity.
Defined.

(** X14.  When the transport answers with a reply that is not [ok],
    [generateContent] never returns a response, whatever the body would
    decode to: it throws [HTTP error! status: s, message: b] with the status
    and the body text of the reply, or the rejection of the body reader. *)
Theorem generateContent_http_error
    (fetch : string -> Http.RequestInit -> result Http.Response)
    this request (reply : Http.Response) :
  fetch (request_url this) (request_init this request) = Ok reply ->
  Http.ok reply = false ->
  generateContent fetch this request
  = match Http.text reply with
    | Ok body =>
        Throw (Error ("HTTP error! status: " ++ Number_toString (Http.status reply)
                      ++ ", message: " ++ body))
    | Throw e => Throw e
    end
  /\ (forall response, generateContent fetch this request <> Ok response)
  /\ (forall g, generateContentStream fetch this request <> Ok g).
Proof.
  intros Hf Hok.
  assert (G : generateContent fetch this request
              = match Http.text reply with
                | Ok body =>
                    Throw (Error ("HTTP error! status: "
                                  ++ Number_toString (Http.status reply)
                                  ++ ", message: " ++ body))
                | Throw e => Throw e
                end)
    by (now rewrite generateContent_outcome, Hf, Hok).
  split; [exact G|]. split.
  - intros response. rewrite G. destruct (Http.text reply); discriminate.
  - intros g. unfold generateContentStream. rewrite G.
    destruct (Http.text reply); discriminate.
Qed.

Lemma generateContent_http_error_witness :
  replying unavailable (request_url adapter) (request_init adapter (request_of (Str "hi")))
  = Ok unavailable
  /\ Http.ok unavailable = false
  /\ generateContent (replying unavailable) adapter (request_of (Str "hi"))
     = Throw (Error "HTTP error! status: 503, message: down").
Proof.
  split; [reflexivity|]. split; [reflexivity|].
  exact (proj1 (generateContent_http_error (replying unavailable) adapter
                  (request_of (Str "hi")) unavailable eq_refl eq_refl)).
Defined.

(** X15.  A rejection of the transport reaches the caller unchanged, from
    [generateContent] and from [generateContentStream] alike, and so does a
    rejection of the body decoder of an [ok] reply. *)
Theorem generateContent_rejection
    (fetch : string -> Http.RequestInit -> result Http.Response)
    this request (e : exn) :
  fetch (request_url this) (request_init this request) = Throw e
  \/ (exists reply,
        fetch (request_url this) (request_init this request) = Ok reply
        /\ Http.ok reply = true
        /\ Http.json reply = Throw e) ->
  generateContent fetch this request = Throw e
  /\ generateContentStream fetch this request = Throw e.
Proof.
  intros H.
  assert (G : generateContent fetch this request = Throw e).
  { rewrite generateContent_outcome.
    destruct H as [->|(reply & -> & -> & ->)]; reflexivity. }
  split; [exact G|]. unfold generateContentStream. now rewrite G.
Qed.

Lemma generateContent_rejection_witness :
  (rejecting (Rejected "connection refused")
     (request_url adapter) (request_init adapter (request_of (Str "hi")))
   = Throw (Rejected "connection refused")
   \/ exists reply,
        rejecting (Rejected "connection refused")
          (request_url adapter) (request_init adapter (request_of (Str "hi"))) = Ok reply
        /\ Http.ok reply = true
        /\ Http.json reply = Throw (Rejected "connection refused"))
  /\ generateContent (rejecting (Rejected "connection refused")) adapter
       (request_of (Str "hi"))
     = Throw (Rejected "connection refused")
  /\ generateContentStream (rejecting (Rejected "connection refused")) adapter
       (request_of (Str "hi"))
     = Throw (Rejected "connection refused").
Proof.
  split; [left; reflexivity|].
  apply (generateContent_rejection (rejecting (Rejected "connection refused"))).
  left. reflexivity.
Defined.

(** ** countTokens, further *)

Lemma length_append (a b : string) :
  String.length (a ++ b) = String.length a + String.length b.
Proof. induction a as [|c a IH]; cbn [append String.length]; [reflexivity | now rewrite IH]. Qed.

Lemma length_escape (c : ascii) : 1 <= String.length (escape c) <= 6.
Proof. destruct c as [[|] [|] [|] [|] [|] [|] [|] [|]]; vm_compute; lia. Qed.

Lemma length_escape_all (s : string) :
  String.length s <= String.length (escape_all s) <= 6 * String.length s.
Proof.
  induction s as [|c s IH]; cbn [escape_all String.length]; [lia|].
  rewrite length_append. pose proof (length_escape c). lia.
Qed.

(** X16.  For string contents the estimate counts the two quotes of the
    serialisation and grows with the string: four times [totalTokens] is at
    least the length of the string plus 2, and at most six times the length
    plus 5 (an escaped character takes up to six). *)
Theorem countTokens_string (s : string) :
  exists n,
    countTokens {| CountTokensParameters.contents := VStr s |}
    = Ok (VObj [("totalTokens", VNum (Finite n 0))])
    /\ (Z.of_nat (String.length s) + 2 <= 4 * n <= 6 * Z.of_nat (String.length s) + 5)%Z.
Proof.
  exists (estimate (quote s)). split.
  - unfold countTokens. cbn [CountTokensParameters.contents truthy].
    destruct s; reflexivity.
  - pose proof (estimate_ceiling (quote s)) as H.
    unfold quote in H. cbn [String.length] in H.
    rewrite length_append in H. cbn [String.length] in H.
    pose proof (length_escape_all s). unfold quote. lia.
Qed.

(** X17.  When [contents] is missing or otherwise falsy (undefined, null,
    false, 0, NaN, the empty string), the empty string is serialised in its
    place and the estimate is 1. *)
Theorem countTokens_falsy (request : CountTokensParameters.t) :
  truthy (CountTokensParameters.contents request) = false ->
  countTokens request = Ok (VObj [("totalTokens", VNum (num 1))]).
Proof. intros H. unfold countTokens. now rewrite H. Qed.

Lemma countTokens_falsy_witness :
  truthy VUndefined = false
  /\ countTokens {| CountTokensParameters.contents := VUndefined |}
     = Ok (VObj [("totalTokens", VNum (num 1))]).
Proof.
  split; [reflexivity|].
  apply (countTokens_falsy {| CountTokensParameters.contents := VUndefined |}).
  reflexivity.
Defined.

(** ** extractFunctionCall and extractFunctionResult *)

Lemma length_substring (n m : nat) (s : string) :
  String.length (substring n m s) <= m.
Proof.
  revert n m. induction s as [|c s IH]; intros [|n] [|m]; cbn [substring String.length];
    try lia.
  - specialize (IH 0 m). lia.
  - apply (IH n 0).
  - apply (IH n (S m)).
Qed.

Lemma random_call_id_shape (drawn : string) :
  prefix "call_" (random_call_id drawn) = true
  /\ 5 <= String.length (random_call_id drawn) <= 14.
Proof.
  unfold random_call_id. split; [now destruct (substring 2 9 drawn)|].
  rewrite length_append. cbn [String.length].
  pose proof (length_substring 2 9 drawn). lia.
Qed.

Lemma or_value_defined (o : option value) :
  exists text, JSON_stringify (or_value o (VObj [])) = Some text.
Proof.
  apply JSON_stringify_defined.
  destruct o as [v|]; cbn [or_value]; [|discriminate].
  destruct (truthy v) eqn:E; [|discriminate].
  intros ->. discriminate E.
Qed.

(** X18.  Each helper returns [null] exactly when no part carries what it
    looks for: [extractFunctionCall] when no part has a function call,
    [extractFunctionResult] when no part has a function response (an empty
    list of parts included). *)
Theorem extract_null_iff (drawn : string) (parts : list Part.t) :
  (extractFunctionCall drawn parts = VNull
   <-> Forall (fun part => Part.functionCall part = None) parts)
  /\ (extractFunctionResult drawn parts = VNull
      <-> Forall (fun part => Part.functionResponse part = None) parts).
Proof.
  split; induction parts as [|part parts IH]; cbn [extractFunctionCall extractFunctionResult];
    try (split; [constructor | reflexivity]).
  - destruct (Part.functionCall part) as [call|] eqn:E.
    + split; [discriminate|]. intros H. inversion H. congruence.
    + rewrite IH. split; [now constructor|]. intros H. now inversion H.
  - destruct (Part.functionResponse part) as [reply|] eqn:E.
    + split; [discriminate|]. intros H. inversion H. congruence.
    + rewrite IH. split; [now constructor|]. intros H. now inversion H.
Qed.

(** X19.  [extractFunctionCall] skips the parts without a function call and
    builds a tool call from the first part that has one, whatever follows:
    type [function], the name of the call, an identifier made of [call_]
    and at most nine drawn characters, and for [arguments] always a string,
    the serialisation of the call's [args], [{}] when there are none. *)
Theorem extractFunctionCall_first
    (drawn : string) (skipped : list Part.t) (part : Part.t) (call : FunctionCall.t)
    (rest : list Part.t) :
  Forall (fun p => Part.functionCall p = None) skipped ->
  Part.functionCall part = Some call ->
  exists id arguments,
    extractFunctionCall drawn (skipped ++ part :: rest)
    = VObj [("id", VStr id);
            ("type", VStr "function");
            ("function",
              VObj [("name", of_option (FunctionCall.name call));
                    ("arguments", VStr arguments)])]
    /\ prefix "call_" id = true
    /\ 5 <= String.length id <= 14
    /\ JSON_stringify
         (match FunctionCall.args call with
          | Some args => if truthy args then args else VObj []
          | None => VObj []
          end) = Some arguments
    /\ (FunctionCall.args call = None -> arguments = "{}").
Proof.
  intros Hskip Hcall.
  destruct (or_value_defined (FunctionCall.args call)) as [arguments Harguments].
  exists (random_call_id drawn), arguments.
  split; [|split; [apply random_call_id_shape|split; [apply random_call_id_shape|split]]].
  - induction Hskip as [|p skipped Hp _ IH]; cbn [app extractFunctionCall].
    + now rewrite Hcall, Harguments.
    + now rewrite Hp.
  - exact Harguments.
  - intros Hnone. rewrite Hnone in Harguments. now injection Harguments as <-.
Qed.

Lemma extractFunctionCall_first_witness :
  Forall (fun p => Part.functionCall p = None) [plain_part]
  /\ Part.functionCall (call_part foo_without_arguments) = Some foo_without_arguments
  /\ exists id arguments,
       extractFunctionCall "0.4fzyo82mvyr" ([plain_part] ++ call_part foo_without_arguments :: [plain_part])
       = VObj [("id", VStr id);
               ("type", VStr "function");
               ("function",
                 VObj [("name", of_option (FunctionCall.name foo_without_arguments));
                       ("arguments", VStr arguments)])]
       /\ prefix "call_" id = true
       /\ 5 <= String.length id <= 14
       /\ JSON_stringify
            (match FunctionCall.args foo_without_arguments with
             | Some args => if truthy args then args else VObj []
             | None => VObj []
             end) = Some arguments
       /\ (FunctionCall.args foo_without_arguments = None -> arguments = "{}").
Proof.
  split; [repeat constructor|]. split; [reflexivity|].
  apply (extractFunctionCall_first "0.4fzyo82mvyr" [plain_part]
           (call_part foo_without_arguments) foo_without_arguments [plain_part]);
    [repeat constructor | reflexivity].
Defined.

(** X20.  [extractFunctionResult] skips the parts without a function
    response and builds its result from the first part that has one: the
    identifier is the response's name when that is a non-empty string and a
    drawn [call_] identifier otherwise, and [result] is always a string, the
    serialisation of the response ([{}] when there is none). *)
Theorem extractFunctionResult_first
    (drawn : string) (skipped : list Part.t) (part : Part.t) (reply : FunctionResponse.t)
    (rest : list Part.t) :
  Forall (fun p => Part.functionResponse p = None) skipped ->
  Part.functionResponse part = Some reply ->
  exists id text,
    extractFunctionResult drawn (skipped ++ part :: rest)
    = VObj [("id", VStr id); ("result", VStr text)]
    /\ id = match FunctionResponse.name reply with
            | Some (String c name) => String c name
            | _ => "call_" ++ substring 2 9 drawn
            end
    /\ id <> ""
    /\ JSON_stringify
         (match FunctionResponse.response reply with
          | Some response => if truthy response then response else VObj []
          | None => VObj []
          end) = Some text.
Proof.
  intros Hskip Hreply.
  destruct (or_value_defined (FunctionResponse.response reply)) as [text Htext].
  exists (or_string (FunctionResponse.name reply) (random_call_id drawn)), text.
  split; [|split; [|split]].
  - induction Hskip as [|p skipped Hp _ IH]; cbn [app extractFunctionResult].
    + now rewrite Hreply, Htext.
    + now rewrite Hp.
  - destruct (FunctionResponse.name reply) as [[|c name]|]; reflexivity.
  - apply or_string_nonempty. discriminate.
  - exact Htext.
Qed.

Lemma extractFunctionResult_first_witness :
  Forall (fun p => Part.functionResponse p = None) [plain_part]
  /\ Part.functionResponse (result_part foo_result) = Some foo_result
  /\ extractFunctionResult "0.4fzyo82mvyr" ([plain_part] ++ result_part foo_result :: [])
     = VObj [("id", VStr "foo"); ("result", VStr (json_text "{'ok':true}"))].
Proof.
  split; [repeat constructor|]. split; [reflexivity|].
  destruct (extractFunctionResult_first "0.4fzyo82mvyr" [plain_part]
              (result_part foo_result) foo_result [])
    as (id & text & H & -> & _ & Ht); [repeat constructor | reflexivity |].
  injection Ht as <-. exact H.
Defined.

(** ** Integers, printed and read *)

Lemma strip_zeros_spec (l : list ascii) (e : Z) :
  exists z,
    strip_zeros l e = (skipn z l, (e + Z.of_nat z)%Z)
    /\ l = (repeat "0"%char z ++ skipn z l)%list.
Proof.
  revert e. induction l as [|c l IH]; intros e.
  - exists 0. cbn. split; [f_equal; f_equal; lia | reflexivity].
  - destruct (Ascii.eqb_spec c "0") as [->|Hc].
    + destruct (IH (e + 1)%Z) as (z & H1 & H2). exists (S z).
      cbn [strip_zeros skipn repeat app]. rewrite H1. split.
      * f_equal. lia.
      * now rewrite <- H2.
    + exists 0. split; [|reflexivity].
      cbn [skipn]. replace (e + Z.of_nat 0)%Z with e by lia.
      destruct c as [[|] [|] [|] [|] [|] [|] [|] [|]]; try reflexivity.
      now destruct Hc.
Qed.

Lemma string_of_list_ascii_app (l1 l2 : list ascii) :
  string_of_list_ascii (l1 ++ l2) = string_of_list_ascii l1 ++ string_of_list_ascii l2.
Proof. induction l1 as [|c l1 IH]; cbn; [reflexivity | now rewrite IH]. Qed.

Lemma length_string_of_list_ascii (l : list ascii) :
  String.length (string_of_list_ascii l) = length l.
Proof. induction l as [|c l IH]; cbn; [reflexivity | now rewrite IH]. Qed.

Lemma rev_repeat {A} (a : A) (n : nat) : rev (repeat a n) = repeat a n.
Proof.
  induction n as [|n IH]; [reflexivity|].
  cbn [repeat rev]. rewrite IH. clear IH.
  induction n as [|n IH]; [reflexivity|]. cbn [repeat app]. now rewrite IH.
Qed.

(** An integer of at most 21 digits is printed as its digits. *)
Lemma positive_toString_digits (p : positive) :
  String.length (digits p) <= 21 -> positive_toString p 0 = digits p.
Proof.
  intros Hlen. unfold positive_toString.
  destruct (strip_zeros_spec (rev (list_ascii_of_string (digits p))) 0)
    as (z & -> & Hl).
  set (r := skipn z (rev (list_ascii_of_string (digits p)))) in *.
  assert (Hd : digits p = string_of_list_ascii (rev r) ++ zeros z).
  { rewrite <- (string_of_list_ascii_of_string (digits p)) at 1.
    rewrite <- (rev_involutive (list_ascii_of_string (digits p))), Hl.
    rewrite rev_app_distr, rev_repeat, string_of_list_ascii_app. reflexivity. }
  assert (Hk : String.length (digits p)
               = String.length (string_of_list_ascii (rev r)) + z).
  { rewrite Hd at 1. rewrite length_append. unfold zeros.
    now rewrite !length_string_of_list_ascii, repeat_length. }
  set (s := string_of_list_ascii (rev r)) in *.
  replace ((Z.of_nat (String.length s) <=? Z.of_nat (String.length s) + (0 + Z.of_nat z))%Z)
    with true by (symmetry; apply Z.leb_le; lia).
  replace ((Z.of_nat (String.length s) + (0 + Z.of_nat z) <=? 21)%Z)
    with true by (symmetry; apply Z.leb_le; lia).
  cbn [andb]. rewrite Hd. f_equal. f_equal. lia.
Qed.

Lemma uint_value_acc (d : Decimal.uint) (a : positive) :
  uint_value d (Zpos a) = Zpos (Pos.of_uint_acc d a).
Proof.
  revert a. induction d; intros a; cbn [uint_value Pos.of_uint_acc];
    [reflexivity | rewrite <- IHd; apply (f_equal (uint_value d)); lia ..].
Qed.

Lemma uint_value_of_uint (d : Decimal.uint) :
  uint_value d 0 = Z.of_N (Pos.of_uint d).
Proof.
  induction d; cbn [uint_value Pos.of_uint]; try reflexivity; try exact IHd;
    apply (uint_value_acc d).
Qed.

Lemma uint_value_to_uint (p : positive) : uint_value (Pos.to_uint p) 0 = Zpos p.
Proof. now rewrite uint_value_of_uint, DecimalPos.Unsigned.of_to. Qed.

Lemma read_digits_digit (c : ascii) (s : string) (acc : Z) (count : nat) :
  is_digit c = true ->
  read_digits (String c s) acc count
  = read_digits s (10 * acc + digit_val c)%Z (S count).
Proof. intros H. cbn [read_digits]. now rewrite H. Qed.

Lemma read_digits_uint (d : Decimal.uint) (rest : string) (acc : Z) (count : nat) :
  delimited rest = true ->
  read_digits (NilEmpty.string_of_uint d ++ rest) acc count
  = (uint_value d acc, count + Decimal.nb_digits d, rest).
Proof.
  intros Hrest. revert acc count.
  induction d; intros acc count;
    cbn [NilEmpty.string_of_uint append uint_value Decimal.nb_digits];
    [|(rewrite read_digits_digit by reflexivity; rewrite IHd;
       replace (S count + Decimal.nb_digits d) with (count + S (Decimal.nb_digits d))
         by lia;
       reflexivity) ..].
  replace (count + 0) with count by lia.
  destruct rest as [|c rest]; [reflexivity|].
  cbn [read_digits]. cbn [delimited] in Hrest.
  now destruct (is_digit c).
Qed.

Lemma to_uint_leading (p : positive) :
  exists c s, digits p = String c s /\ is_digit c = true /\ c <> "0"%char.
Proof.
  unfold digits.
  pose proof (DecimalPos.Unsigned.to_uint_nonnil p) as Hnil.
  pose proof (DecimalPos.Unsigned.to_uint_nonzero p) as Hzero.
  pose proof (DecimalPos.Unsigned.to_of (Pos.to_uint p)) as Hnorm.
  rewrite DecimalPos.Unsigned.of_to in Hnorm. cbn [N.to_uint] in Hnorm.
  destruct (Pos.to_uint p) as [|d|d|d|d|d|d|d|d|d|d] eqn:E;
    cbn [NilEmpty.string_of_uint];
    try (do 2 eexists; split; [reflexivity|]; split; [reflexivity | discriminate]).
  - now destruct Hnil.
  - exfalso.
    assert (Hd : d <> Decimal.Nil) by (intros ->; now apply Hzero).
    pose proof (DecimalFacts.nb_digits_unorm (Decimal.D0 d) ltac:(discriminate)) as H1.
    change (Decimal.unorm (Decimal.D0 d)) with (Decimal.unorm d) in Hnorm.
    pose proof (DecimalFacts.nb_digits_unorm d Hd) as H2.
    rewrite <- Hnorm in H2. cbn [Decimal.nb_digits] in H2. lia.
Qed.

(** ** The serialiser and the parser *)

Lemma JSON_stringify_VArr (items : list value) :
  JSON_stringify (VArr items) = Some ("[" ++ join "," (map element_text items) ++ "]").
Proof. reflexivity. Qed.

Lemma JSON_stringify_VObj (fields : list (string * value)) :
  JSON_stringify (VObj fields) = Some ("{" ++ join "," (members_text fields) ++ "}").
Proof. reflexivity. Qed.

Lemma prefix_append (a rest : string) : prefix a (a ++ rest) = true.
Proof.
  induction a as [|c a IH]; cbn [append].
  - now destruct rest.
  - cbn [prefix]. destruct (ascii_dec c c) as [_|H]; [exact IH | now destruct H].
Qed.

Lemma substring_all (s : string) : substring 0 (String.length s) s = s.
Proof. induction s as [|c s IH]; cbn [substring String.length]; [reflexivity | now rewrite IH]. Qed.

Lemma drop_append (a rest : string) : drop (String.length a) (a ++ rest) = rest.
Proof.
  unfold drop. rewrite length_append.
  replace (String.length a + String.length rest - String.length a)
    with (String.length rest) by lia.
  induction a as [|c a IH]; cbn [append String.length substring];
    [apply substring_all | exact IH].
Qed.

Lemma eat_append (literal : string) (v : value) (rest : string) :
  eat literal v (literal ++ rest) = Some (v, rest).
Proof. unfold eat. now rewrite prefix_append, drop_append. Qed.

Lemma skip_ws_start (c : ascii) (s : string) :
  is_ws c = false -> skip_ws (String c s) = String c s.
Proof. intros H. cbn [skip_ws]. now rewrite H. Qed.

Lemma existsb_eqb_false (k : string) (names : list string) :
  existsb (String.eqb k) names = false -> ~ In k names.
Proof.
  intros H Hin.
  assert (E : existsb (String.eqb k) names = true)
    by (apply existsb_exists; exists k; split; [exact Hin | apply String.eqb_refl]).
  congruence.
Qed.

Lemma obj_set_fresh (k : string) (v : value) (acc : list (string * value)) :
  ~ In k (map fst acc) -> obj_set k v acc = (acc ++ [(k, v)])%list.
Proof.
  induction acc as [|[k' v'] acc IH]; cbn [obj_set map fst In app]; [reflexivity|].
  intros H. destruct (String.eqb_spec k k') as [->|Hk].
  - destruct H. now left.
  - rewrite IH; [reflexivity|]. intros Hin. apply H. now right.
Qed.


Lemma sum_lengths_join (l : list string) :
  fold_right (fun t n => S (String.length t + n)) 0 l
  <= S (String.length (join "," l)).
Proof.
  induction l as [|t [|t' l] IH]; cbn [fold_right join String.length] in *; try lia.
  rewrite !length_append. cbn [String.length]. lia.
Qed.

Lemma value_induction (P : value -> Prop) :
  P VUndefined -> P VNull -> (forall b, P (VBool b)) -> (forall n, P (VNum n)) ->
  (forall s, P (VStr s)) ->
  (forall items, Forall P items -> P (VArr items)) ->
  (forall fields, Forall (fun kv => P (snd kv)) fields -> P (VObj fields)) ->
  forall v, P v.
Proof.
  intros Hu Hn Hb Hnum Hs Ha Ho.
  fix IH 1.
  intros [| |b|n|s|items|fields];
    [exact Hu | exact Hn | apply Hb | apply Hnum | apply Hs | | ].
  - apply Ha. revert items. fix IHl 1. intros [|v items]; constructor;
      [apply IH | apply IHl].
  - apply Ho. revert fields. fix IHl 1. intros [|[k v] fields]; constructor;
      [apply IH | apply IHl].
Qed.

Lemma parse_value_literal (fuel : nat) (rest : string) :
  parse_value (S fuel) ("null" ++ rest) = eat "null" VNull ("null" ++ rest)
  /\ parse_value (S fuel) ("true" ++ rest) = eat "true" (VBool true) ("true" ++ rest)
  /\ parse_value (S fuel) ("false" ++ rest) = eat "false" (VBool false) ("false" ++ rest).
Proof. repeat split. Qed.

Lemma parse_value_empty (fuel : nat) (rest : string) :
  parse_value (S fuel) ("[]" ++ rest) = Some (VArr [], rest)
  /\ parse_value (S fuel) ("{}" ++ rest) = Some (VObj [], rest).
Proof. split; reflexivity. Qed.

Lemma parse_value_array (fuel : nat) (s : string) :
  value_start s ->
  parse_value (S fuel) (String "[" s)
  = match parse_elements fuel s with
    | Some (items, r) => Some (VArr items, r)
    | None => None
    end.
Proof.
  intros [s'|s'|s'|s'|s'|s'|s'|c s' Hc]; try reflexivity.
  destruct c as [[|] [|] [|] [|] [|] [|] [|] [|]]; try discriminate Hc; reflexivity.
Qed.

Lemma parse_value_object (fuel : nat) (more : string) :
  parse_value (S fuel) (String "{" (String dquote more))
  = match parse_members fuel (String dquote more) [] with
    | Some (fields, r) => Some (VObj fields, r)
    | None => None
    end.
Proof. reflexivity. Qed.

Lemma value_start_append (t rest : string) : value_start t -> value_start (t ++ rest).
Proof. intros []; now constructor. Qed.

Lemma parse_elements_last (fuel : nat) (s rest : string) (v : value) :
  parse_value fuel s = Some (v, String "]" rest) ->
  parse_elements (S fuel) s = Some ([v], rest).
Proof. intros H. cbn [parse_elements]. now rewrite H. Qed.

Lemma parse_elements_next (fuel : nat) (s more rest : string) (v : value) (vs : list value) :
  parse_value fuel s = Some (v, String "," more) ->
  parse_elements fuel more = Some (vs, rest) ->
  parse_elements (S fuel) s = Some (v :: vs, rest).
Proof. intros H1 H2. cbn [parse_elements]. rewrite H1. simpl. now rewrite H2. Qed.

Lemma parse_members_step (fuel : nat) (k : string) (more : string) (acc : list (string * value)) :
  parse_members (S fuel) (quote k ++ String ":" more) acc
  = match parse_value fuel more with
    | Some (v, r3) =>
        match skip_ws r3 with
        | String "," r4 => parse_members fuel r4 (obj_set k v acc)
        | String "}" r4 => Some (obj_set k v acc, r4)
        | _ => None
        end
    | None => None
    end.
Proof.
  unfold quote. cbn [append]. rewrite append_assoc. cbn [append].
  cbn [parse_members].
  change (skip_ws (String dquote (escape_all k ++ String dquote (String ":" more))))
    with (String dquote (escape_all k ++ String dquote (String ":" more))).
  cbv iota. rewrite parse_string_escape_all.
  reflexivity.
Qed.


Lemma parse_fraction_delimited (ip : Z) (rest : string) :
  delimited rest = true -> parse_fraction ip rest = Some (ip, 0, rest).
Proof.
  destruct rest as [|c rest]; [reflexivity|].
  destruct c as [[|] [|] [|] [|] [|] [|] [|] [|]]; try discriminate; reflexivity.
Qed.

Lemma parse_exponent_delimited (rest : string) :
  delimited rest = true -> parse_exponent rest = Some (0%Z, rest).
Proof.
  destruct rest as [|c rest]; [reflexivity|].
  destruct c as [[|] [|] [|] [|] [|] [|] [|] [|]]; try discriminate; reflexivity.
Qed.

Lemma parse_number_unsigned (c : ascii) (s : string) :
  is_digit c = true -> c <> "0"%char ->
  parse_number (String c s)
  = (let '(ip, _, s2) := read_digits (String c s) 0 0 in
     match parse_fraction ip s2 with
     | Some (m, fcount, s3) =>
         match parse_exponent s3 with
         | Some (ex, s4) => Some (Finite m (ex - Z.of_nat fcount), s4)
         | None => None
         end
     | None => None
     end)
  /\ parse_number (String "-" (String c s))
     = (let '(ip, _, s2) := read_digits (String c s) 0 0 in
        match parse_fraction ip s2 with
        | Some (m, fcount, s3) =>
            match parse_exponent s3 with
            | Some (ex, s4) => Some (Finite (- m) (ex - Z.of_nat fcount), s4)
            | None => None
            end
        | None => None
        end).
Proof.
  intros Hc Hz.
  destruct c as [[|] [|] [|] [|] [|] [|] [|] [|]]; try discriminate Hc;
    try (now destruct Hz); split; reflexivity.
Qed.

(** The parser reads an integer back from its digits. *)
Lemma parse_number_digits (p : positive) (rest : string) :
  delimited rest = true ->
  parse_number (digits p ++ rest) = Some (Finite (Zpos p) 0, rest)
  /\ parse_number ("-" ++ digits p ++ rest) = Some (Finite (Zneg p) 0, rest).
Proof.
  intros Hrest.
  destruct (to_uint_leading p) as (c & s & Hd & Hc & Hz).
  assert (Hread : read_digits (digits p ++ rest) 0 0
                  = (Zpos p, 0 + Decimal.nb_digits (Pos.to_uint p), rest))
    by (unfold digits; now rewrite read_digits_uint, uint_value_to_uint).
  rewrite Hd in Hread |- *. cbn [append] in Hread |- *.
  destruct (parse_number_unsigned c (s ++ rest) Hc Hz) as [-> ->].
  rewrite Hread, parse_fraction_delimited, parse_exponent_delimited by exact Hrest.
  split; reflexivity.
Qed.

Lemma parse_number_zero (rest : string) :
  delimited rest = true -> parse_number (String "0" rest) = Some (Finite 0 0, rest).
Proof.
  intros Hrest. unfold parse_number.
  change (Ascii.eqb "0" "0") with true. cbv beta iota.
  change (is_digit "0") with true. cbv beta iota.
  now rewrite parse_fraction_delimited, parse_exponent_delimited.
Qed.

Lemma parse_value_number (fuel : nat) (c : ascii) (s : string) :
  is_digit c = true ->
  parse_value (S fuel) (String c s)
  = match parse_number (String c s) with
    | Some (n, r) => Some (VNum n, r)
    | None => None
    end
  /\ parse_value (S fuel) (String "-" (String c s))
     = match parse_number (String "-" (String c s)) with
       | Some (n, r) => Some (VNum n, r)
       | None => None
       end.
Proof.
  intros Hc.
  destruct c as [[|] [|] [|] [|] [|] [|] [|] [|]]; try discriminate Hc; split; reflexivity.
Qed.

Lemma plain_number_reads_back (n : number) : plain_number n = true -> reads_back (VNum n).
Proof.
  destruct n as [[|p|p] e| |negative]; cbn [plain_number]; try discriminate.
  - intros ->%Z.eqb_eq. exists "0".
    repeat split; [now constructor | cbn; lia|].
    intros [|fuel] rest Hrest; cbn [json_size]; [lia|]. intros _.
    cbn [append].
    rewrite (proj1 (parse_value_number fuel "0" rest eq_refl)).
    now rewrite (parse_number_zero rest Hrest).
  - intros [->%Z.eqb_eq Hlen%Nat.leb_le]%andb_prop.
    destruct (to_uint_leading p) as (c & s & Hd & Hc & Hz).
    exists (digits p). cbn [JSON_stringify Number_toString].
    rewrite positive_toString_digits by exact Hlen.
    repeat split.
    + rewrite Hd. now constructor.
    + rewrite Hd. cbn. lia.
    + intros [|fuel] rest Hrest; cbn [json_size]; [lia|]. intros _.
      pose proof (proj1 (parse_number_digits p rest Hrest)) as Hparse.
      rewrite Hd in Hparse |- *. cbn [append] in Hparse |- *.
      now rewrite (proj1 (parse_value_number fuel c (s ++ rest) Hc)), Hparse.
  - intros [->%Z.eqb_eq Hlen%Nat.leb_le]%andb_prop.
    destruct (to_uint_leading p) as (c & s & Hd & Hc & Hz).
    exists ("-" ++ digits p). cbn [JSON_stringify Number_toString].
    rewrite positive_toString_digits by exact Hlen.
    repeat split.
    + constructor.
    + cbn. lia.
    + intros [|fuel] rest Hrest; cbn [json_size]; [lia|]. intros _.
      pose proof (proj2 (parse_number_digits p rest Hrest)) as Hparse.
      rewrite append_assoc. rewrite Hd in Hparse |- *. cbn [append] in Hparse |- *.
      now rewrite (proj2 (parse_value_number fuel c (s ++ rest) Hc)), Hparse.
Qed.

Lemma join_cons_cons (sep a b : string) (l : list string) :
  join sep (a :: b :: l) = a ++ sep ++ join sep (b :: l).
Proof. reflexivity. Qed.

Lemma json_size_VObj (fields : list (string * value)) :
  json_size (VObj fields) = S (members_size fields).
Proof. reflexivity. Qed.

Lemma reads_back_element (v : value) :
  reads_back v ->
  value_start (element_text v)
  /\ json_size v <= String.length (element_text v)
  /\ forall fuel rest,
       delimited rest = true ->
       json_size v <= fuel -> parse_value fuel (element_text v ++ rest) = Some (v, rest).
Proof. intros (t & Ht & H). unfold element_text. now rewrite Ht. Qed.

Lemma parse_elements_reads_back (items : list value) :
  items <> [] -> Forall reads_back items ->
  forall fuel rest,
    elements_size items <= fuel ->
    parse_elements fuel (join "," (map element_text items) ++ "]" ++ rest)
    = Some (items, rest).
Proof.
  intros Hne Hall. induction Hall as [|v items Hv Hall IH]; [congruence|].
  intros fuel rest Hfuel. unfold elements_size in *. cbn [fold_right] in Hfuel.
  destruct fuel as [|fuel]; [lia|].
  destruct (reads_back_element v Hv) as (_ & _ & Hparse).
  destruct items as [|v' items]; cbn [map join].
  - apply parse_elements_last. apply Hparse; [reflexivity | lia].
  - rewrite append_assoc. cbn [append].
    eapply parse_elements_next.
    + apply Hparse; [reflexivity | lia].
    + apply IH; [discriminate|].
      cbn [fold_right] in *. lia.
Qed.

Lemma members_text_cons (k : string) (v : value) (fields : list (string * value)) :
  reads_back v ->
  members_text ((k, v) :: fields)
  = (quote k ++ ":" ++ element_text v) :: members_text fields.
Proof. intros (t & Ht & _). cbn [members_text]. unfold element_text. now rewrite Ht. Qed.

Lemma parse_members_reads_back (fields : list (string * value)) :
  fields <> [] -> Forall (fun kv => reads_back (snd kv)) fields ->
  forall fuel rest acc,
    members_size fields <= fuel ->
    NoDup (map fst (acc ++ fields)) ->
    parse_members fuel (join "," (members_text fields) ++ "}" ++ rest) acc
    = Some ((acc ++ fields)%list, rest).
Proof.
  intros Hne Hall. induction Hall as [|[k v] fields Hv Hall IH]; [congruence|].
  intros fuel rest acc Hfuel Hdup. cbn [members_size] in Hfuel. cbn [snd] in Hv.
  destruct fuel as [|fuel]; [lia|].
  destruct (reads_back_element v Hv) as (_ & _ & Hparse).
  assert (Hfresh : ~ In k (map fst acc)).
  { rewrite map_app in Hdup. cbn [map fst] in Hdup.
    apply NoDup_remove_2 in Hdup. intros Hin. apply Hdup, in_or_app. now left. }
  rewrite (members_text_cons k v fields Hv).
  destruct fields as [|[k' v'] fields].
  - cbn [members_text join]. rewrite !append_assoc. cbn [append].
    rewrite parse_members_step, Hparse by (reflexivity || lia).
    simpl. now rewrite obj_set_fresh.
  - assert (Hv' : reads_back v') by (inversion Hall; assumption).
    rewrite (members_text_cons k' v' fields Hv'), join_cons_cons.
    rewrite <- (members_text_cons k' v' fields Hv').
    rewrite !append_assoc. cbn [append].
    rewrite parse_members_step, Hparse by (reflexivity || lia).
    rewrite skip_ws_start by reflexivity. cbv beta match.
    rewrite obj_set_fresh by exact Hfresh.
    change (String "}" rest) with ("}" ++ rest).
    rewrite IH.
    + now rewrite <- app_assoc.
    + discriminate.
    + lia.
    + now rewrite <- app_assoc.
Qed.

Lemma elements_size_le (items : list value) :
  Forall reads_back items ->
  elements_size items <= S (String.length (join "," (map element_text items))).
Proof.
  intros Hall.
  transitivity (fold_right (fun t n => S (String.length t + n)) 0 (map element_text items));
    [|apply sum_lengths_join].
  unfold elements_size.
  induction Hall as [|v items Hv _ IH]; cbn [map fold_right]; [lia|].
  destruct (reads_back_element v Hv) as (_ & Hsize & _). lia.
Qed.

Lemma members_size_le (fields : list (string * value)) :
  Forall (fun kv => reads_back (snd kv)) fields ->
  members_size fields <= S (String.length (join "," (members_text fields))).
Proof.
  intros Hall.
  transitivity (fold_right (fun t n => S (String.length t + n)) 0 (members_text fields));
    [|apply sum_lengths_join].
  induction Hall as [|[k v] fields Hv _ IH]; cbn [members_size]; [cbn; lia|].
  rewrite (members_text_cons k v fields Hv). cbn [fold_right].
  destruct (reads_back_element v Hv) as (_ & Hsize & _).
  rewrite !length_append. lia.
Qed.

Lemma elements_start (v : value) (items : list value) :
  reads_back v -> value_start (join "," (map element_text (v :: items))).
Proof.
  intros Hv. destruct (reads_back_element v Hv) as (Hstart & _).
  destruct items; cbn [map join]; [exact Hstart | now apply value_start_append].
Qed.

Lemma members_start (k : string) (v : value) (fields : list (string * value)) :
  reads_back v ->
  exists more, join "," (members_text ((k, v) :: fields)) = String dquote more.
Proof.
  intros Hv. rewrite (members_text_cons k v fields Hv).
  destruct (members_text fields); cbn [join]; unfold quote; cbn [append]; eexists; reflexivity.
Qed.

Lemma forallb_reads_back (items : list value) :
  Forall (fun v => plain_json v = true -> reads_back v) items ->
  forallb plain_json items = true -> Forall reads_back items.
Proof.
  induction 1 as [|v items Hv _ IH]; cbn [forallb]; [constructor|].
  intros [H1 H2]%andb_prop. constructor; auto.
Qed.

Lemma all_reads_back (fields : list (string * value)) :
  Forall (fun kv => plain_json (snd kv) = true -> reads_back (snd kv)) fields ->
  (fix all (fs : list (string * value)) : bool :=
     match fs with
     | [] => true
     | (_, v) :: rest => plain_json v && all rest
     end) fields = true ->
  Forall (fun kv => reads_back (snd kv)) fields.
Proof.
  induction 1 as [|[k v] fields Hv _ IH]; [constructor|].
  intros [H1 H2]%andb_prop. constructor; auto.
Qed.

Lemma distinct_NoDup (names : list string) : distinct names = true -> NoDup names.
Proof.
  induction names as [|k names IH]; cbn [distinct]; [constructor|].
  intros [H1 H2]%andb_prop. constructor; [|auto].
  apply existsb_eqb_false. now destruct (existsb (String.eqb k) names).
Qed.

(** Plain data is read back from its serialisation. *)
Lemma plain_json_reads_back (v : value) : plain_json v = true -> reads_back v.
Proof.
  induction v as [| |b|n|s|items IH|fields IH] using value_induction;
    cbn [plain_json]; try discriminate.
  - intros _. exists "null". repeat split; [constructor | cbn; lia|].
    intros [|fuel] rest _; cbn [json_size]; [lia|]. intros _.
    rewrite (proj1 (parse_value_literal fuel rest)). apply eat_append.
  - intros _. destruct b.
    + exists "true". repeat split; [constructor | cbn; lia|].
      intros [|fuel] rest _; cbn [json_size]; [lia|]. intros _.
      rewrite (proj1 (proj2 (parse_value_literal fuel rest))). apply eat_append.
    + exists "false". repeat split; [constructor | cbn; lia|].
      intros [|fuel] rest _; cbn [json_size]; [lia|]. intros _.
      rewrite (proj2 (proj2 (parse_value_literal fuel rest))). apply eat_append.
  - apply plain_number_reads_back.
  - intros _. exists (quote s). repeat split; [constructor | cbn; lia|].
    intros [|fuel] rest _; cbn [json_size]; [lia|]. intros _.
    unfold quote. cbn [append]. rewrite append_assoc. cbn [append].
    now rewrite parse_value_string, parse_string_escape_all.
  - intros Hplain. pose proof (forallb_reads_back items IH Hplain) as Hall.
    eexists. split; [apply JSON_stringify_VArr|].
    split; [constructor|]. split.
    + cbn [json_size append String.length]. rewrite length_append. cbn [String.length].
      pose proof (elements_size_le items Hall). unfold elements_size in *. lia.
    + intros [|fuel] rest _; cbn [json_size]; [lia|]. intros Hfuel.
      destruct items as [|v items].
      * apply (proj1 (parse_value_empty fuel rest)).
      * cbn [append]. rewrite append_assoc.
        rewrite parse_value_array
          by (apply value_start_append, elements_start; now inversion Hall).
        rewrite parse_elements_reads_back;
          [reflexivity | discriminate | exact Hall | unfold elements_size; lia].
  - intros [Hdistinct Hplain]%andb_prop.
    pose proof (all_reads_back fields IH Hplain) as Hall.
    eexists. split; [apply JSON_stringify_VObj|].
    split; [constructor|]. split.
    + rewrite json_size_VObj. cbn [append String.length]. rewrite length_append.
      cbn [String.length]. pose proof (members_size_le fields Hall). lia.
    + intros [|fuel] rest _; rewrite json_size_VObj; [lia|]. intros Hfuel.
      destruct fields as [|[k v] fields].
      * apply (proj2 (parse_value_empty fuel rest)).
      * cbn [append]. rewrite append_assoc.
        destruct (members_start k v fields) as [more Hmore];
          [inversion Hall; assumption|].
        pose proof (parse_members_reads_back ((k, v) :: fields)
                      ltac:(discriminate) Hall fuel rest [] ltac:(lia)
                      (distinct_NoDup _ Hdistinct)) as Hparse.
        rewrite Hmore in Hparse |- *. cbn [append] in Hparse |- *.
        now rewrite parse_value_object, Hparse.
Qed.

Lemma JSON_parse_reads_back (v : value) (t : string) :
  reads_back v -> JSON_stringify v = Some t -> JSON_parse t = Some v.
Proof.
  intros (t' & Ht' & _ & Hsize & Hparse) Ht.
  rewrite Ht in Ht'. injection Ht' as <-.
  unfold JSON_parse.
  rewrite <- (append_empty_r t) at 2.
  rewrite Hparse by (reflexivity || lia). reflexivity.
Qed.

(** ** Function calls, encoded and decoded *)

Lemma value_start_nonempty (t : string) : value_start t -> or_string (Some t) "{}" = t.
Proof. now intros []. Qed.

(** What [extractFunctionCall] and [extractFunctionResult] serialise. *)
Lemma or_value_reads_back (o : option value) :
  match o with Some v => plain_json v = true | None => True end ->
  reads_back (or_value o (VObj [])).
Proof.
  destruct o as [v|]; cbn [or_value]; intros H.
  - destruct (truthy v); now apply plain_json_reads_back.
  - now apply plain_json_reads_back.
Qed.

(** X21.  A function call survives encoding and decoding: the tool call
    [extractFunctionCall] builds from a part, put in a wire response, is
    decoded by [convertFromOpenAIFormat] into exactly one function call with
    the same name and the same arguments, [{}] standing for missing or falsy
    arguments, whenever the arguments are plain data: null, booleans,
    integers of at most 21 digits, strings, arrays, and objects with
    distinct keys. *)
Theorem function_call_round_trip
    (drawn : string) (call : FunctionCall.t) (rest : list Part.t)
    (content finish : option string) (usage : option OpenAI.Usage) :
  match FunctionCall.args call with
  | Some args => plain_json args = true
  | None => True
  end ->
  exists response,
    convertFromOpenAIFormat
      (calling (as_tool_call (extractFunctionCall drawn (call_part call :: rest)))
         content finish usage)
    = Ok response
    /\ get "functionCalls" response
       = VArr [VObj [("name", of_option (FunctionCall.name call));
                     ("args",
                       match FunctionCall.args call with
                       | Some args => if truthy args then args else VObj []
                       | None => VObj []
                       end)]].
Proof.
  intros Hplain.
  pose proof (or_value_reads_back _ Hplain) as Hback.
  destruct Hback as (t & Ht & Hstart & Hrest).
  assert (Hparse : JSON_parse t = Some (or_value (FunctionCall.args call) (VObj [])))
    by (apply JSON_parse_reads_back; [now exists t | exact Ht]).
  unfold calling, convertFromOpenAIFormat.
  cbn [extractFunctionCall call_part Part.functionCall].
  rewrite Ht.
  cbn [chain OpenAI.choices OpenAI.message OpenAI.tool_calls nth_error as_tool_call get
       assoc String.eqb Ascii.eqb Bool.eqb of_option OpenAI.function OpenAI.arguments
       OpenAI.name].
  rewrite (value_start_nonempty t Hstart), Hparse. cbn [bind].
  eexists. split; [reflexivity|].
  cbn [get assoc String.eqb Ascii.eqb Bool.eqb].
  destruct (FunctionCall.name call) as [name|]; reflexivity.
Qed.

Lemma function_call_round_trip_witness :
  plain_json (VObj [("query", VStr "rocq");
                    ("limit", VNum (num 10));
                    ("exact", VBool true);
                    ("tags", VArr [VStr "a"; VNull; VNum (num (-3))])]) = true
  /\ exists response,
       convertFromOpenAIFormat
         (calling (as_tool_call
                     (extractFunctionCall "0.4fzyo82mvyr" (call_part search_call :: [])))
            None (Some "tool_calls") None)
       = Ok response
       /\ get "functionCalls" response
          = VArr [VObj [("name", VStr "search");
                        ("args",
                          VObj [("query", VStr "rocq");
                                ("limit", VNum (num 10));
                                ("exact", VBool true);
                                ("tags", VArr [VStr "a"; VNull; VNum (num (-3))])])]].
Proof.
  split; [reflexivity|].
  apply (function_call_round_trip "0.4fzyo82mvyr" search_call []
           None (Some "tool_calls") None).
  reflexivity.
Defined.

(** X22.  The [result] string [extractFunctionResult] builds parses back to
    the response it serialised ([{}] for a missing or falsy response),
    whenever the response is plain data: null, booleans, integers of at
    most 21 digits, strings, arrays, and objects with distinct keys. *)
Theorem extractFunctionResult_round_trip
    (drawn : string) (reply : FunctionResponse.t) (rest : list Part.t) :
  match FunctionResponse.response reply with
  | Some response => plain_json response = true
  | None => True
  end ->
  exists text,
    get "result" (extractFunctionResult drawn (result_part reply :: rest)) = VStr text
    /\ JSON_parse text
       = Some match FunctionResponse.response reply with
              | Some response => if truthy response then response else VObj []
              | None => VObj []
              end.
Proof.
  intros Hplain.
  pose proof (or_value_reads_back _ Hplain) as Hback.
  destruct Hback as (t & Ht & Hrest).
  exists t. cbn [extractFunctionResult result_part Part.functionResponse].
  rewrite Ht. cbn [get assoc String.eqb Ascii.eqb Bool.eqb of_option].
  split; [reflexivity|].
  apply (JSON_parse_reads_back (or_value (FunctionResponse.response reply) (VObj [])));
    [now exists t | exact Ht].
Qed.

Lemma extractFunctionResult_round_trip_witness :
  plain_json (VObj [("ok", VBool true)]) = true
  /\ exists text,
       get "result" (extractFunctionResult "0.4fzyo82mvyr" (result_part foo_result :: []))
       = VStr text
       /\ JSON_parse text = Some (VObj [("ok", VBool true)]).
Proof.
  split; [reflexivity|].
  apply (extractFunctionResult_round_trip "0.4fzyo82mvyr" foo_result []).
  reflexivity.
Defined.

(** ** The shape of a returned response *)

Lemma or_number_reported (count : option number) :
  or_number count (num 0) = reported count.
Proof. destruct count as [[[|p|p] e| |negative]|]; reflexivity. Qed.

(** X23.  Every returned response has exactly the properties [candidates],
    [usageMetadata], [text], [data], [functionCalls], [executableCode] and
    [codeExecutionResult], with [data], [executableCode] and
    [codeExecutionResult] undefined; its [functionCalls] are exactly the
    function calls among the parts of its candidate, at most one; and its
    usage counts are the wire counts, with 0 in place of a missing, zero or
    NaN count. *)
Theorem convertFromOpenAIFormat_shape
    (openaiResponse : OpenAI.Response) (response : value) :
  convertFromOpenAIFormat openaiResponse = Ok response ->
  exists candidate calls,
    keys response
    = ["candidates"; "usageMetadata"; "text"; "data"; "functionCalls"; "executableCode";
       "codeExecutionResult"]
    /\ get "data" response = VUndefined
    /\ get "executableCode" response = VUndefined
    /\ get "codeExecutionResult" response = VUndefined
    /\ get "candidates" response = VArr [candidate]
    /\ keys candidate = ["content"; "finishReason"; "index"]
    /\ get "functionCalls" response = VArr calls
    /\ calls = function_calls_of (get "parts" (get "content" candidate))
    /\ length calls <= 1
    /\ get "usageMetadata" response
       = VObj [("promptTokenCount",
                 VNum (reported (chain (OpenAI.usage openaiResponse) OpenAI.prompt_tokens)));
               ("candidatesTokenCount",
                 VNum (reported
                         (chain (OpenAI.usage openaiResponse) OpenAI.completion_tokens)));
               ("totalTokenCount",
                 VNum (reported (chain (OpenAI.usage openaiResponse) OpenAI.total_tokens)))].
Proof.
  unfold convertFromOpenAIFormat. rewrite first_choice_spec.
  destruct (first_choice openaiResponse) as [choice|]; [|discriminate].
  destruct (chain (OpenAI.message choice) OpenAI.tool_calls) as [[|functionCall more]|].
  2: destruct (JSON_parse _) as [args|]; [|discriminate].
  all: cbn [bind]; intros [= <-]; do 2 eexists;
    cbn [keys map fst get assoc String.eqb Ascii.eqb Bool.eqb];
    do 6 (split; [reflexivity|]); (split; [reflexivity|]);
    unfold usageMetadata; rewrite !or_number_reported.
  2: { destruct (string_truthy _); repeat split; cbn; lia. }
  all: repeat split; cbn; lia.
Qed.

Lemma convertFromOpenAIFormat_shape_witness :
  exists response,
    convertFromOpenAIFormat counted_response = Ok response
    /\ get "usageMetadata" response
       = VObj [("promptTokenCount", VNum (num 12));
               ("candidatesTokenCount", VNum (num 0));
               ("totalTokenCount", VNum (num 0))]
    /\ get "functionCalls" response = VArr [].
Proof.
  eexists. split; [reflexivity|].
  destruct (convertFromOpenAIFormat_shape counted_response _ eq_refl)
    as (candidate & calls & _ & _ & _ & _ & Hc & _ & Hcalls & Hof & _ & Husage).
  split; [exact Husage|].
  rewrite Hcalls, Hof. injection Hc as <-. reflexivity.
Defined.
